(** * The OpenAPI generator of http-api-docs (openapi.go)

    A shallow embedding of [tools/http-api-docs/openapi.go]: the mapping of
    command arguments to OpenAPI parameters, the inference of a schema from
    an example response, and the assembly of the operations into one
    document.  Go strings are byte strings ([string]), Go maps are finite
    maps ([gmap]), nil-able pointers are [option]s, and everything the
    program prints is collected, in order, in a list of [Event]s. *)

From Stdlib Require Import ZArith Ascii String List Bool Lia PrimFloat.
From stdpp Require Import gmap strings list fin_maps pretty.

Set Warnings "-register-all".

Local Open Scope string_scope.
Local Open Scope Z_scope.

(** ** The Go standard library functions the program calls *)

Module strings.

(** [strings.HasPrefix(s, prefix)] *)
Definition HasPrefix (s prefix : string) : bool := String.prefix prefix s.

Fixpoint drop (n : nat) (s : string) : string :=
  match n, s with
  | O, _ => s
  | S n', String _ s' => drop n' s'
  | S _, EmptyString => EmptyString
  end.

(** [strings.TrimPrefix(s, prefix)] *)
Definition TrimPrefix (s prefix : string) : string :=
  if HasPrefix s prefix then drop (String.length prefix) s else s.

(** [strings.HasSuffix(s, suffix)] *)
Definition HasSuffix (s suffix : string) : bool :=
  (String.length suffix <=? String.length s)%nat &&
  String.eqb (drop (String.length s - String.length suffix) s) suffix.

(** [strings.TrimSuffix(s, suffix)]: [s[:len(s)-len(suffix)]] when [s]
    ends with [suffix], and [s] otherwise. *)
Definition TrimSuffix (s suffix : string) : string :=
  if HasSuffix s suffix
  then String.substring 0 (String.length s - String.length suffix) s
  else s.

(** [strings.Contains(s, substr)] *)
Fixpoint Contains (s substr : string) : bool :=
  String.prefix substr s ||
  match s with
  | EmptyString => false
  | String _ s' => Contains s' substr
  end.

(** [strings.Replace(s, old, new, -1)] for a non-empty [old]: every
    non-overlapping occurrence, from the left. *)
Fixpoint ReplaceAll_go (fuel : nat) (s old new : string) : string :=
  match fuel with
  | O => s
  | S fuel' =>
      match s with
      | EmptyString => EmptyString
      | String c s' =>
          if String.prefix old s
          then new +:+ ReplaceAll_go fuel' (drop (String.length old) s) old new
          else String c (ReplaceAll_go fuel' s' old new)
      end
  end.

Definition ReplaceAll (s old new : string) : string :=
  match old with
  | EmptyString => s
  | _ => ReplaceAll_go (S (String.length s)) s old new
  end.

(** [strings.Join(elems, sep)] *)
Definition Join (elems : list string) (sep : string) : string :=
  String.concat sep elems.

(** The encodings of the code points with [unicode.IsSpace]: the six
    ASCII ones, U+0085, U+00A0, U+1680, U+2000..U+200A, U+2028, U+2029,
    U+202F, U+205F and U+3000. [space_width bs] is the number of bytes
    of the white space rune [bs] starts with, 0 when it starts with none. *)
Definition space_width (bs : list N) : nat :=
  match bs with
  | (9 | 10 | 11 | 12 | 13 | 32)%N :: _ => 1
  | 194%N :: (133 | 160)%N :: _ => 2
  | 225%N :: 154%N :: 128%N :: _ => 3
  | 226%N :: 128%N :: b :: _ =>
      if ((128 <=? b) && (b <=? 138) || (b =? 168) || (b =? 169) || (b =? 175))%N
      then 3 else 0
  | 226%N :: 129%N :: 159%N :: _ => 3
  | 227%N :: 128%N :: 128%N :: _ => 3
  | _ => 0
  end.

Fixpoint TrimLeft_go (fuel : nat) (bs : list N) : list N :=
  match fuel with
  | O => bs
  | S fuel' =>
      match space_width bs with
      | O => bs
      | w => TrimLeft_go fuel' (List.skipn w bs)
      end
  end.

(** The white space rune [bs] ends with: the last rune starts at the
    nearest rune-start byte (one that is not of the form 10xxxxxx) and
    must reach the end exactly. *)
Definition space_width_last (rev_bs : list N) : nat :=
  match rev_bs with
  | b1 :: rest =>
      if (b1 <? 128)%N then space_width [b1]
      else match rest with
           | b2 :: rest2 =>
               if ((b2 <? 128) || (192 <=? b2))%N
               then (if (space_width [b2; b1] =? 2)%nat then 2 else 0)%nat
               else match rest2 with
                    | b3 :: _ => if (space_width [b3; b2; b1] =? 3)%nat then 3%nat else 0%nat
                    | [] => 0%nat
                    end
           | [] => 0%nat
           end
  | [] => 0%nat
  end.

Fixpoint TrimRight_go (fuel : nat) (rev_bs : list N) : list N :=
  match fuel with
  | O => rev_bs
  | S fuel' =>
      match space_width_last rev_bs with
      | O => rev_bs
      | w => TrimRight_go fuel' (List.skipn w rev_bs)
      end
  end.

Definition bytes (s : string) : list N := List.map N_of_ascii (list_ascii_of_string s).
Definition of_bytes (bs : list N) : string :=
  string_of_list_ascii (List.map ascii_of_N bs).

(** [strings.TrimSpace(s)]: leading white space is removed first, then
    trailing white space. *)
Definition TrimSpace (s : string) : string :=
  let bs := bytes s in
  let l := TrimLeft_go (List.length bs) bs in
  of_bytes (List.rev (TrimRight_go (List.length l) (List.rev l))).

End strings.

Module strconv.

(** A [*strconv.NumError] is distinguished by its [Err] field only. *)
Inductive NumError := ErrSyntax | ErrRange.

(** [strconv.ParseBool(str)] *)
Definition ParseBool (str : string) : bool * option NumError :=
  if existsb (String.eqb str) ["1"; "t"; "T"; "true"; "TRUE"; "True"]
  then (true, None)
  else if existsb (String.eqb str) ["0"; "f"; "F"; "false"; "FALSE"; "False"]
  then (false, None)
  else (false, Some ErrSyntax).

Definition maxUint64 : Z := 2 ^ 64 - 1.

(** The digit loop of [strconv.ParseUint(s, 10, bitSize)], on the bytes
    that are left, with the [uint64] accumulator [n]. *)
Fixpoint ParseUint_loop (bitSize : Z) (cs : list N) (n : Z) : Z * option NumError :=
  let cutoff := maxUint64 / 10 + 1 in
  let maxVal := 2 ^ bitSize - 1 in
  match cs with
  | [] => (n, None)
  | c :: cs' =>
      if ((48 <=? c) && (c <=? 57))%N then
        let d := Z.of_N c - 48 in
        if cutoff <=? n then (maxVal, Some ErrRange)
        else
          let n := (n * 10) mod 2 ^ 64 in
          let n1 := (n + d) mod 2 ^ 64 in
          if (n1 <? n) || (maxVal <? n1) then (maxVal, Some ErrRange)
          else ParseUint_loop bitSize cs' n1
      else (0, Some ErrSyntax)
  end.

(** [strconv.ParseUint(s, 10, bitSize)] for [0 < bitSize <= 64]. In base
    10 every byte has to be a decimal digit. *)
Definition ParseUint (s : string) (bitSize : Z) : Z * option NumError :=
  if String.eqb s "" then (0, Some ErrSyntax)
  else ParseUint_loop bitSize (strings.bytes s) 0.

(** [strconv.ParseInt(s, 10, bitSize)] for [0 < bitSize <= 64] *)
Definition ParseInt (s : string) (bitSize : Z) : Z * option NumError :=
  match s with
  | EmptyString => (0, Some ErrSyntax)
  | String c s' =>
      let neg := Ascii.eqb c "-" in
      let s := if Ascii.eqb c "+" || neg then s' else s in
      match ParseUint s bitSize with
      | (_, Some ErrSyntax) => (0, Some ErrSyntax)
      | (un, _) =>
          let cutoff := 2 ^ (bitSize - 1) in
          if negb neg && (cutoff <=? un) then (cutoff - 1, Some ErrRange)
          else if neg && (cutoff <? un) then (- cutoff, Some ErrRange)
          else (if neg then - un else un, None)
      end
  end.

(** [strconv.Itoa(i)] *)
Definition Itoa (i : Z) : string := pretty i.

End strconv.

(** ** Values *)

Definition float64 : Type := PrimFloat.float.

(** A value of the empty interface [any], by its dynamic type. The program
    meets the types a decoded JSON text has (nil, bool, float64, string,
    [[]any], [map[string]any]), those of a default value (bool, int64,
    string, and the slice of [*interface{}] of a merged parameter), and
    the error it prints; an error is its message. *)
Inductive any :=
| any_nil
| any_bool (b : bool)
| any_int64 (n : Z)
| any_float64 (f : float64)
| any_string (s : string)
| any_slice (l : list any)
| any_map (m : gmap string any)
| any_ptr (p : option any)
| any_error (msg : string).

Definition error : Type := string.

(** ** The openapi3 entities the program fills in

    Each Go struct is a record in a module of its name, so that a field
    reads [Schema.Items s] for [s.Items]. Pointer fields are [option]s.
    A [SchemaOrRef], [ParameterOrRef], [ResponseOrRef] or
    [RequestBodyOrRef] is never a reference here and is modelled by what
    it holds. *)

Inductive SchemaType :=
| SchemaTypeArray | SchemaTypeBoolean | SchemaTypeInteger
| SchemaTypeNumber | SchemaTypeObject | SchemaTypeString.

Global Instance SchemaType_eq_dec : EqDecision SchemaType.
Proof. solve_decision. Defined.

Module Schema.
(** [openapi3.Schema]. [Properties] is a map that may be nil. *)
Inductive t := mk {
  Type_ : option SchemaType;
  Items : option t;
  Properties : option (gmap string t);
  AdditionalProperties : option t;
  MinItems : option Z;
  MaxItems : option Z;
  Default : option any;
  Format : option string;
}.

(** [openapi3.Schema{}], the schema that allows anything *)
Definition zero : t := mk None None None None None None None None.

(** [openapi3.Schema{Type: &t}] *)
Definition of_type (ty : SchemaType) : t :=
  mk (Some ty) None None None None None None None.

(** [s.Items = &openapi3.SchemaOrRef{Schema: &items}] *)
Definition set_Items (items : t) (s : t) : t :=
  mk (Type_ s) (Some items) (Properties s) (AdditionalProperties s)
     (MinItems s) (MaxItems s) (Default s) (Format s).

(** [s.WithDefault(d)] *)
Definition WithDefault (d : any) (s : t) : t :=
  mk (Type_ s) (Items s) (Properties s) (AdditionalProperties s)
     (MinItems s) (MaxItems s) (Some d) (Format s).
End Schema.

Inductive ParameterIn := ParameterInQuery.

Module Param.
(** [openapi3.Parameter] *)
Record t := mk {
  Name : string;
  In : ParameterIn;
  Description : option string;
  Schema : option Schema.t;
  Required : option bool;
  Deprecated : option bool;
  Explode : option bool;
  MapOfAnything : gmap string any;
}.

(** [p.Description = &d] *)
Definition set_Description (d : string) (p : t) : t :=
  mk (Name p) (In p) (Some d) (Schema p) (Required p) (Deprecated p)
     (Explode p) (MapOfAnything p).
End Param.

(** ** The catalogue entries *)

Module Argument.
(** Modelled from the spec: the struct [Argument] is declared in another
    file of the package. The fields are the ones openapi.go reads;
    [Type_] and [Default] are strings, and an empty [Default] means that
    there is none. *)
Record t := mk {
  Name : string;
  Description : string;
  Type_ : string;
  Required : bool;
  Default : string;
}.
End Argument.

(** ** What the program prints

    [log.Printf] and [log.Println] write to the logger, [fmt.Println] to
    standard output. The arguments are kept as they are passed. *)
Inductive Event :=
| log_Printf (format : string) (a : any)
| log_Println (args : list any)
| fmt_Println (line : string).

(** A computation that prints: the events, in order, and the result. *)
Definition W (A : Type) : Type := list Event * A.

Global Instance W_ret : MRet W := λ A a, ([], a).
Global Instance W_bind : MBind W := λ A B f m,
  let '(out1, a) := m in let '(out2, b) := f a in ((out1 ++ out2)%list, b).

Definition tell (e : Event) : W unit := ([e], tt).

Definition LF : string := String (ascii_of_nat 10) "".

(** ** Parameter mapping *)

(** The [switch t] that parses a default value: the value and the error
    of [strconv.ParseBool] for a boolean, of [strconv.ParseInt(_, 10, 32)]
    for an integer, and the string itself with no error otherwise. *)
Definition parseDefault (t : SchemaType) (s : string) : any * option strconv.NumError :=
  match t with
  | SchemaTypeBoolean => (any_bool (strconv.ParseBool s).1, (strconv.ParseBool s).2)
  | SchemaTypeInteger => (any_int64 (strconv.ParseInt s 32).1, (strconv.ParseInt s 32).2)
  | _ => (any_string s, None)
  end.

Definition genParameterForArgument (arg : Argument.t) (aliasToArg : bool)
  : W (option Param.t) :=
  let ty := Argument.Type_ arg in
  (* switch arg.Type; [None] is the [return nil] of the "file" case *)
  t ← (if String.eqb ty "bool" then mret (Some SchemaTypeBoolean)
       else if String.eqb ty "int" || String.eqb ty "uint" || String.eqb ty "int64"
       then mret (Some SchemaTypeInteger)
       else if String.eqb ty "string" then mret (Some SchemaTypeString)
       else if String.eqb ty "array" then mret (Some SchemaTypeArray)
       else if String.eqb ty "file" then mret None
       else
         _ ← tell (log_Printf ("WARN: Unsupported type for argument: %s" +:+ LF)
                              (any_string ty));
         mret (Some SchemaTypeString));
  match t with
  | None => mret None
  | Some t =>
      let schema := Schema.of_type t in
      let schema :=
        if decide (t = SchemaTypeArray)
        then Schema.set_Items (Schema.of_type SchemaTypeString) schema
        else schema in
      schema ←
        (if negb (String.eqb (Argument.Default arg) "") then
           let d_err := parseDefault t (Argument.Default arg) in
           d ← match d_err.2 with
               | Some _ =>
                   _ ← tell (fmt_Println ("WARN: Couldn't parse default value for "
                                          +:+ Argument.Name arg));
                   mret (any_string (Argument.Default arg))
               | None => mret d_err.1
               end;
           mret (Schema.WithDefault d schema)
         else mret schema);
      let alias := if aliasToArg then "arg" else Argument.Name arg in
      let description :=
        strings.TrimSuffix (Argument.Description arg)
                           (" Default: " +:+ Argument.Default arg +:+ ".") in
      mret (Some {|
        Param.Name := alias;
        Param.In := ParameterInQuery;
        Param.Description := Some description;
        Param.Schema := Some schema;
        Param.Required :=
          if Argument.Required arg then Some (Argument.Required arg) else None;
        Param.Deprecated :=
          if strings.Contains (Argument.Description arg) "(DEPRECATED)"
             || strings.HasPrefix (Argument.Description arg) "Removed, "
          then Some true else None;
        Param.Explode := None;
        Param.MapOfAnything :=
          if strings.Contains (Argument.Description arg) "(experimental)"
          then {["x-experimental" := any_bool true]} else ∅;
      |})
  end.

(** The variables of the loop of [genParameterForMultiArgument]. *)
Record MultiVars := mkMultiVars {
  params : list Param.t;
  defaults : list any;
  anyDefault : bool;
  descriptions : list string;
  deprecated : bool;
  required : bool;
}.

(** [p != nil && *p] for a [*bool] *)
Definition deref_or_false (p : option bool) : bool :=
  match p with Some b => b | None => false end.

(** The loop [for i, arg := range args] from index [i] on. [None] is the
    run-time panic of a nil pointer dereference: [genParameterForArgument]
    returns nil for a file argument and the body reads [p.Name]. *)
Fixpoint genParameterForMultiArgument_loop
    (i : nat) (args : list Argument.t) (vars : MultiVars) : W (option MultiVars) :=
  match args with
  | [] => mret (Some vars)
  | arg :: args' =>
      p ← genParameterForArgument arg false;
      match p with
      | None => mret None
      | Some p =>
          match Param.Description p, Param.Schema p with
          | Some p_Description, Some p_Schema =>
              let d := "arg" +:+ strconv.Itoa (Z.of_nat i) +:+ " (" +:+ Param.Name p
                       +:+ "): " +:+ strings.TrimSpace p_Description in
              let p := Param.set_Description d p in
              genParameterForMultiArgument_loop (S i) args' {|
                descriptions := (descriptions vars ++ [d])%list;
                params := (params vars ++ [p])%list;
                defaults := (defaults vars ++ [any_ptr (Schema.Default p_Schema)])%list;
                anyDefault := anyDefault vars || bool_decide (Schema.Default p_Schema ≠ None);
                deprecated := deprecated vars || deref_or_false (Param.Deprecated p);
                required := deref_or_false (Param.Required p);
              |}
          | _, _ => mret None
          end
      end
  end.

Definition genParameterForMultiArgument (args : list Argument.t) : W (option Param.t) :=
  vars ← genParameterForMultiArgument_loop 0 args
            (mkMultiVars [] [] false [] false false);
  match vars with
  | None => mret None
  | Some vars =>
      let t := SchemaTypeArray in
      let t2 := SchemaTypeString in
      let num := Z.of_nat (List.length (params vars)) in
      let schema := {|
        Schema.Type_ := Some t;
        Schema.MinItems := Some num;
        Schema.MaxItems := Some num;
        Schema.Items := Some (Schema.of_type t2);
        Schema.Properties := None;
        Schema.AdditionalProperties := None;
        Schema.Default := None;
        Schema.Format := None;
      |} in
      let schema :=
        if anyDefault vars
        then Schema.WithDefault (any_slice (defaults vars)) schema
        else schema in
      let alias := "arg" in
      let description := strings.Join (descriptions vars) LF in
      mret (Some {|
        Param.Name := alias;
        Param.In := ParameterInQuery;
        Param.Description := Some description;
        Param.Schema := Some schema;
        Param.Explode := Some true;
        Param.Required := if required vars then Some (required vars) else None;
        Param.Deprecated := if deprecated vars then Some (deprecated vars) else None;
        Param.MapOfAnything := ∅;
      |})
  end.

(** ** Response schema inference *)

(** A [for k, v := range m] loop whose body at each entry is the printing
    computation stored there: the events come in the order of iteration
    (which Go leaves open; here it is the order of [map_to_list]), the
    results are collected under their keys. *)
Definition range_map {A : Type} (m : gmap string (W A)) : W (gmap string A) :=
  (concat ((λ kv : string * W A, kv.2.1) <$> map_to_list m), snd <$> m).

(** The key that [for k, v := range v { firstKey = k; ...; break }] leaves
    in [firstKey]: the key of the entry met first, the zero string for an
    empty map. For a map of one entry it is the key of that entry. *)
Definition firstKey {A : Type} (v : gmap string A) : string :=
  match map_to_list v with
  | (k, _) :: _ => k
  | [] => ""
  end.

Fixpoint genSchemaForResponse (x : any) : W (option Schema.t) :=
  match x with
  | any_string v =>
      if String.eqb v "<bool>" then
        mret (Some (Schema.of_type SchemaTypeBoolean))
      else if existsb (String.eqb v)
                ["<int>"; "<uint>"; "<int32>"; "<uint32>"; "<int64>"; "<uint64>";
                 "<duration-ns>"; "<timestamp>"] then
        mret (Some (Schema.of_type SchemaTypeInteger))
      else if existsb (String.eqb v) ["<float32>"; "<float64>"] then
        mret (Some (Schema.of_type SchemaTypeNumber))
      else if existsb (String.eqb v)
                ["<string>"; "<peer-id>"; "peer-id"; "<cid-string>"; "<multiaddr-string>"] then
        mret (Some (Schema.of_type SchemaTypeString))
      else if String.eqb v "<array>" then
        mret (Some (Schema.of_type SchemaTypeArray))
      else if String.eqb v "<object>" then
        mret (Some (Schema.of_type SchemaTypeObject))
      else
        _ ← tell (log_Printf ("WARN: Unsupported type for response: %s" +:+ LF) (any_string v));
        mret None
  | any_slice v =>
      itemType ← match v with
                 | [v0] => genSchemaForResponse v0      (* len(v) == 1 *)
                 | _ => mret None
                 end;
      itemType ← match itemType with
                 | None =>
                     _ ← tell (log_Println [any_string "WARN: Couldn't determine item type of array"]);
                     mret Schema.zero
                 | Some s => mret s
                 end;
      mret (Some (Schema.set_Items itemType (Schema.of_type SchemaTypeArray)))
  | any_map v =>
      (* the recursive call at each entry; when len(v) == 1 the entry at
         firstKey is the one that holds firstValue *)
      let calls := genSchemaForResponse <$> v in
      if bool_decide (size v = 1%nat) && String.eqb (firstKey v) "<string>" then
        itemType ← default (mret None) (calls !! firstKey v);
        itemType ← match itemType with
                   | None =>
                       _ ← tell (log_Println [any_string "WARN: Couldn't determine item type of object"]);
                       mret Schema.zero
                   | Some s => mret s
                   end;
        mret (Some {|
          Schema.Type_ := Some SchemaTypeObject;
          Schema.AdditionalProperties := Some itemType;
          Schema.Items := None; Schema.Properties := None;
          Schema.MinItems := None; Schema.MaxItems := None;
          Schema.Default := None; Schema.Format := None |})
      else
        ss ← range_map calls;
        let ps := (λ s : option Schema.t, default Schema.zero s) <$> ss in
        mret (Some {|
          Schema.Type_ := Some SchemaTypeObject;
          Schema.Properties := Some ps;
          Schema.Items := None; Schema.AdditionalProperties := None;
          Schema.MinItems := None; Schema.MaxItems := None;
          Schema.Default := None; Schema.Format := None |})
  | _ =>
      _ ← tell (log_Printf ("WARN: Unsupported type for argument: %s" +:+ LF) x);
      mret None
  end.

(** ** Endpoint assembly *)

Module MediaType.
(** [openapi3.MediaType] *)
Record t := mk {
  Schema : option Schema.t;
  Example : option any;
}.
Definition zero : t := mk None None.
End MediaType.

Module Response.
(** [openapi3.Response] *)
Record t := mk {
  Description : string;
  Content : gmap string MediaType.t;
}.
End Response.

Module RequestBody.
(** [openapi3.RequestBody] *)
Record t := mk {
  Description : option string;
  Content : gmap string MediaType.t;
  Required : option bool;
}.
End RequestBody.

Module ExternalDocumentation.
Record t := mk { URL : string }.
End ExternalDocumentation.

Module Operation.
(** [openapi3.Operation]. An entry of [Parameters] is the [ParameterOrRef]
    that [ToParameterOrRef] makes of a parameter; it holds that parameter.
    [Responses] is the map of the responses by status code, empty when
    the operation has no response object. *)
Record t := mk {
  ID : option string;
  ExternalDocs : option ExternalDocumentation.t;
  Description : option string;
  Parameters : list Param.t;
  RequestBody : option RequestBody.t;
  Responses : gmap string Response.t;
}.
End Operation.

Module Info.
Record t := mk {
  Title : string;
  Version : string;
  Description : option string;
}.
End Info.

Module Spec.
(** [openapi3.Spec]: the document. [Paths] maps a path to its path item,
    which maps an HTTP method to the operation. *)
Record t := mk {
  Openapi : string;
  Info : Info.t;
  ExternalDocs : option ExternalDocumentation.t;
  Paths : gmap string (gmap string Operation.t);
}.
End Spec.

(** [cmds.Status] of go-ipfs-cmds *)
Inductive Status := Active | Experimental | Deprecated | Removed.

Global Instance Status_eq_dec : EqDecision Status.
Proof. solve_decision. Defined.

Module Endpoint.
(** Modelled from the spec: the struct [Endpoint] is declared in another
    file of the package. The fields are the ones openapi.go reads. *)
Record t := mk {
  Name : string;
  Description : string;
  Arguments : list Argument.t;
  Options : list Argument.t;
  Response : string;
  Status : Status;
}.
End Endpoint.

(** Modelled from the spec: [InStatus] is defined in another file of the
    package. It selects the endpoints of the catalogue that have the given
    status, in catalogue order. *)
Definition InStatus (api : list Endpoint.t) (status : Status) : list Endpoint.t :=
  List.filter (λ endp, bool_decide (Endpoint.Status endp = status)) api.

Module OpenAPIFormatter.
(** The formatter: the specification held by its reflector, and its own
    copy, the one that the operations are added to and that is written
    out. The markdown formatter [md] has no state. *)
Record t := mk {
  reflector_Spec : option Spec.t;
  spec : Spec.t;
}.

(** [new(OpenAPIFormatter)] *)
Definition zero : t :=
  mk None (Spec.mk "" (Info.mk "" "" None) None ∅).
End OpenAPIFormatter.

Definition description : string :=
  "When a Kubo IPFS node is running as a daemon, it exposes an HTTP RPC API that allows you to control the node and run the same commands you can from the command line.

In many cases, using this RPC API is preferable to embedding IPFS directly in your program â€” it allows you to maintain peer connections that are longer lived than your app and you can keep a single IPFS node running instead of several if your app can be launched multiple times. In fact, the `ipfs` CLI commands use this RPC API when operating in online mode.".

Definition GenerateMetadata (myself : OpenAPIFormatter.t) : OpenAPIFormatter.t :=
  let reflector_Spec := {|
    Spec.Openapi := "3.0.0";
    Spec.Info := {|
      Info.Title := "IPFS RPC API";
      Info.Version := "0.13.0";
      Info.Description := Some description |};
    Spec.ExternalDocs :=
      Some (ExternalDocumentation.mk "https://docs.ipfs.tech/reference/kubo/rpc/");
    Spec.Paths := ∅ |} in
  {| OpenAPIFormatter.reflector_Spec := Some reflector_Spec;
     OpenAPIFormatter.spec := reflector_Spec |}.

(** A run that may end in a run-time panic ([None]) goes on with [k] only
    when it has a result. *)
Definition or_panic {A B : Type} (r : option A) (k : A → W (option B)) : W (option B) :=
  match r with
  | None => mret None
  | Some a => k a
  end.

(** The loop [for _, arg := range args] that appends
    [genParameterForArgument(arg, aliasToArg).ToParameterOrRef()] to the
    parameters of the operation. [ToParameterOrRef] has a value receiver:
    on the nil that [genParameterForArgument] returns for a file it is a
    nil pointer dereference, and the run ends in a panic ([None]) with
    what was printed so far. *)
Fixpoint range_parameters (aliasToArg : bool) (args : list Argument.t)
  : W (option (list Param.t)) :=
  match args with
  | [] => mret (Some [])
  | arg :: args' =>
      p ← genParameterForArgument arg aliasToArg;
      or_panic p (λ p,
        ps ← range_parameters aliasToArg args';
        mret (cons p <$> ps))
  end.

Definition plainTextResponse : string :=
  "This endpoint returns a `text/plain` response body.".

(** What a loop of [Generate] does after a step: a panic goes through, an
    error is returned at once, and otherwise the loop goes on with the
    formatter as the step has left it. *)
Definition and_then (r : option (OpenAPIFormatter.t * option error))
    (k : OpenAPIFormatter.t → W (option (OpenAPIFormatter.t * option error)))
  : W (option (OpenAPIFormatter.t * option error)) :=
  match r with
  | None => mret None
  | Some (myself, Some err) => mret (Some (myself, Some err))
  | Some (myself, None) => k myself
  end.

Section Assembler.

(** What openapi.go calls and does not define: the markdown formatter's
    [GenerateBodyBlock], [json.Unmarshal] into an [any], and the
    document builder's [AddOperation], which returns the document as it
    leaves it together with its error, if any. *)
Variable GenerateBodyBlock : list Argument.t → string.
Variable json_Unmarshal : string → any + error.
Variable AddOperation :
  Spec.t → string → string → Operation.t → Spec.t * option error.

(** The body of [GenerateEndpoint] up to its [return]: the operation
    that is built for the endpoint, or [None] when the run panics before
    (an option that is a file). *)
Definition GenerateEndpoint_op (endp : Endpoint.t) : W (option Operation.t) :=
  let id := strings.TrimPrefix (Endpoint.Name endp) "/api/v0/" in
  let refname :=
    strings.ReplaceAll (strings.TrimPrefix (Endpoint.Name endp) "/") "/" "-" in
  let bodyArgs :=
    List.filter (λ arg, String.eqb (Argument.Type_ arg) "file") (Endpoint.Arguments endp) in
  let otherArgs :=
    List.filter (λ arg, negb (String.eqb (Argument.Type_ arg) "file"))
                (Endpoint.Arguments endp) in
  params1 ←
    (if (1 <? List.length otherArgs)%nat then
       p ← genParameterForMultiArgument otherArgs;
       mret ((λ p, [p]) <$> p)
     else
       range_parameters (List.length otherArgs <=? 1)%nat otherArgs);
  or_panic params1 (λ params1,
  params2 ← range_parameters false (Endpoint.Options endp);
  or_panic params2 (λ params2,
  let requestBody :=
    match bodyArgs with
    | [] => None
    | bodyArgs0 :: _ =>
        let description := GenerateBodyBlock bodyArgs in
        let description := strings.TrimSpace description in
        let description :=
          strings.TrimPrefix description ("### Request Body" +:+ LF +:+ LF) in
        Some {|
          RequestBody.Description := Some description;
          RequestBody.Content :=
            {["multipart/form-data" := {|
                MediaType.Schema := Some {|
                  Schema.Type_ := Some SchemaTypeObject;
                  Schema.Properties := Some
                    {[Argument.Name bodyArgs0 := {|
                        Schema.Type_ := Some SchemaTypeArray;
                        Schema.Items := Some {|
                          Schema.Type_ := Some SchemaTypeString;
                          Schema.Format := Some "binary";
                          Schema.Items := None; Schema.Properties := None;
                          Schema.AdditionalProperties := None;
                          Schema.MinItems := None; Schema.MaxItems := None;
                          Schema.Default := None |};
                        Schema.Properties := None;
                        Schema.AdditionalProperties := None;
                        Schema.MinItems := None; Schema.MaxItems := None;
                        Schema.Default := None; Schema.Format := None |}]};
                  Schema.Items := None; Schema.AdditionalProperties := None;
                  Schema.MinItems := None; Schema.MaxItems := None;
                  Schema.Default := None; Schema.Format := None |};
                MediaType.Example := None |}]};
          RequestBody.Required :=
            if existsb Argument.Required bodyArgs then Some true else None |}
    end in
  responses ←
    (if String.eqb (Endpoint.Response endp) plainTextResponse then
       let textBody := MediaType.zero in
       let resp := {|
         Response.Description := "Successful response";
         Response.Content := {["text/plain" := textBody]} |} in
       mret {["200" := resp]}
     else if negb (String.eqb (Endpoint.Response endp) "") then
       let mimeJSON := "application/json" in
       match json_Unmarshal (Endpoint.Response endp) with
       | inr err =>
           _ ← tell (log_Println [any_string "Couldn't parse JSON for Response:";
                                  any_error err; any_string "; JSON:";
                                  any_string (Endpoint.Response endp)]);
           mret ∅
       | inl responseJson =>
           schema ← genSchemaForResponse responseJson;
           let jsonBody := {|
             MediaType.Example := Some responseJson;
             MediaType.Schema := schema |} in
           let resp := {|
             Response.Description := "Successful response";
             Response.Content := {[mimeJSON := jsonBody]} |} in
           mret {["200" := resp]}
       end
     else mret ∅);
  mret (Some {|
    Operation.ID := Some id;
    Operation.ExternalDocs :=
      Some (ExternalDocumentation.mk
              ("https://docs.ipfs.tech/reference/kubo/rpc/#" +:+ refname));
    Operation.Description := Some (Endpoint.Description endp);
    Operation.Parameters := (params1 ++ params2)%list;
    Operation.RequestBody := requestBody;
    Operation.Responses := responses |}))).

Definition MethodPost : string := "POST".

(** [GenerateEndpoint]: the operation is handed to the document builder;
    the result is the formatter afterwards and the builder's error, or
    [None] when the run has ended in a panic. *)
Definition GenerateEndpoint (myself : OpenAPIFormatter.t) (endp : Endpoint.t)
  : W (option (OpenAPIFormatter.t * option error)) :=
  op ← GenerateEndpoint_op endp;
  or_panic op (λ op,
    let r := AddOperation (OpenAPIFormatter.spec myself) MethodPost (Endpoint.Name endp) op in
    mret (Some (OpenAPIFormatter.mk (OpenAPIFormatter.reflector_Spec myself) r.1, r.2))).

(** The inner loop of [Generate], [for _, endp := range endpoints], which
    returns at the first error. *)
Fixpoint Generate_endpoints (myself : OpenAPIFormatter.t) (endpoints : list Endpoint.t)
  : W (option (OpenAPIFormatter.t * option error)) :=
  match endpoints with
  | [] => mret (Some (myself, None))
  | endp :: endpoints' =>
      r ← GenerateEndpoint myself endp;
      and_then r (λ myself, Generate_endpoints myself endpoints')
  end.

(** The outer loop of [Generate], [for _, status := range ...]. *)
Fixpoint Generate_statuses (myself : OpenAPIFormatter.t) (api : list Endpoint.t)
    (statuses : list Status) : W (option (OpenAPIFormatter.t * option error)) :=
  match statuses with
  | [] => mret (Some (myself, None))
  | status :: statuses' =>
      let endpoints := InStatus api status in
      if (List.length endpoints =? 0)%nat then
        Generate_statuses myself api statuses'
      else
        r ← Generate_endpoints myself endpoints;
        and_then r (λ myself, Generate_statuses myself api statuses')
  end.

Definition Generate (myself : OpenAPIFormatter.t) (api : list Endpoint.t)
  : W (option (OpenAPIFormatter.t * option error)) :=
  let myself := GenerateMetadata myself in
  Generate_statuses myself api [Active; Experimental; Deprecated; Removed].

End Assembler.

(** ** The document builder

    [AddOperation] belongs to the library openapi-go. This is what it
    does with the operations that [GenerateEndpoint] builds, all of whose
    parameters are query parameters. *)

(** [strings.ToLower] on ASCII letters (the method is always "POST"). *)
Definition ToLower_ascii (s : string) : string :=
  strings.of_bytes
    ((λ b, if ((65 <=? b) && (b <=? 90))%N then (b + 32)%N else b) <$> strings.bytes s).

(** The longest prefix of [s] whose bytes satisfy [keep], and the rest. *)
Fixpoint span (keep : ascii → bool) (s : string) : string * string :=
  match s with
  | String c s' =>
      if keep c then let '(taken, rest) := span keep s' in (String c taken, rest)
      else (EmptyString, s)
  | EmptyString => (EmptyString, EmptyString)
  end.

(** A match of the pattern of a path parameter, "{name}" or
    "{name:pattern}", at the beginning of [s]: the name and what follows
    the match. The name is a nonempty run of bytes other than "}" and ":",
    a pattern a nonempty run of bytes other than "}". *)
Definition placeholder_at (s : string) : option (string * string) :=
  match s with
  | String "{" s1 =>
      let '(name, r1) := span (λ c, negb (Ascii.eqb c "}" || Ascii.eqb c ":")) s1 in
      if String.eqb name "" then None
      else match r1 with
           | String "}" r2 => Some (name, r2)
           | String ":" r2 =>
               let '(pattern, r3) := span (λ c, negb (Ascii.eqb c "}")) r2 in
               if String.eqb pattern "" then None
               else match r3 with
                    | String "}" r4 => Some (name, r4)
                    | _ => None
                    end
           | _ => None
           end
  | _ => None
  end.

(** The names of the path parameters of a path, from the left. *)
Fixpoint pathParameters_go (fuel : nat) (s : string) : list string :=
  match fuel, s with
  | S fuel', String c s' =>
      match placeholder_at s with
      | Some (name, rest) => name :: pathParameters_go fuel' rest
      | None => pathParameters_go fuel' s'
      end
  | _, _ => []
  end.

Definition pathParameters (path : string) : list string :=
  pathParameters_go (String.length path) path.

(** The messages about parameters that occur twice (a parameter is
    identified by its name and its location). *)
Fixpoint duplicateParameters (seen : list string) (params : list Param.t) : list string :=
  match params with
  | [] => []
  | p :: params' =>
      if bool_decide (Param.Name p ∈ seen)
      then ("duplicate parameter in query: " +:+ Param.Name p)
             :: duplicateParameters seen params'
      else duplicateParameters (Param.Name p :: seen) params'
  end.

(** [Spec.AddOperation]. The method is put in lower case. An operation
    that is already there for the path and the method is an error. An
    operation without responses gets the response "204". A parameter that
    occurs twice and a path parameter in the path (for which an operation
    with query parameters only has no parameter) are errors; the library
    collects the names of the path parameters in a Go map, so each name
    is reported once, and where Go leaves the order of these messages
    open they are given here in the order of the path. Otherwise the
    operation is stored under the path and the method. After an error the
    document is as it was. *)
Definition AddOperation_model (s : Spec.t) (method path : string) (op : Operation.t)
  : Spec.t * option error :=
  let method := ToLower_ascii method in
  let pathItem := default ∅ (Spec.Paths s !! path) in
  match pathItem !! method with
  | Some _ => (s, Some ("operation already exists: " +:+ method +:+ " " +:+ path))
  | None =>
      let op :=
        if bool_decide (Operation.Responses op = ∅)
        then {| Operation.ID := Operation.ID op;
                Operation.ExternalDocs := Operation.ExternalDocs op;
                Operation.Description := Operation.Description op;
                Operation.Parameters := Operation.Parameters op;
                Operation.RequestBody := Operation.RequestBody op;
                Operation.Responses := {["204" := Response.mk "No Content" ∅]} |}
        else op in
      if negb (existsb (String.eqb method)
                 ["get"; "put"; "post"; "delete"; "options"; "head"; "patch"; "trace"])
      then (s, Some ("unexpected http method: " +:+ method))
      else
        let errs :=
          (duplicateParameters [] (Operation.Parameters op)
           ++ ((λ name, "undefined path parameter: " +:+ name) <$> remove_dups (pathParameters path)))%list in
        match errs with
        | _ :: _ => (s, Some (strings.Join errs ", "))
        | [] =>
            ({| Spec.Openapi := Spec.Openapi s; Spec.Info := Spec.Info s;
                Spec.ExternalDocs := Spec.ExternalDocs s;
                Spec.Paths := <[path := <[method := op]> pathItem]> (Spec.Paths s) |}, None)
        end
  end.

(** ** Definitions used to state the properties *)

Definition unsupported_warning (ty : string) : Event :=
  log_Printf ("WARN: Unsupported type for argument: %s" +:+ LF) (any_string ty).

Definition default_warning (arg : Argument.t) : Event :=
  fmt_Println ("WARN: Couldn't parse default value for " +:+ Argument.Name arg).

(** The schema type that the [switch arg.Type] gives an argument that is
    not a file. *)
Definition declaredType (ty : string) : SchemaType :=
  if String.eqb ty "bool" then SchemaTypeBoolean
  else if existsb (String.eqb ty) ["int"; "uint"; "int64"] then SchemaTypeInteger
  else if String.eqb ty "string" then SchemaTypeString
  else if String.eqb ty "array" then SchemaTypeArray
  else SchemaTypeString.

Definition supportedType (ty : string) : bool :=
  existsb (String.eqb ty) ["bool"; "int"; "uint"; "int64"; "string"; "array"].

(** The default value that ends up in the schema of a single argument. *)
Definition storedDefault (t : SchemaType) (s : string) : option any :=
  if String.eqb s "" then None
  else match (parseDefault t s).2 with
       | Some _ => Some (any_string s)
       | None => Some (parseDefault t s).1
       end.

(** [genParameterForArgument] on an argument that is not a file, in closed
    form: the parameter and the events (see
    [genParameterForArgument_not_file]). *)
Definition parameterOf (arg : Argument.t) (aliasToArg : bool) : Param.t :=
  let t := declaredType (Argument.Type_ arg) in
  {| Param.Name := if aliasToArg then "arg" else Argument.Name arg;
     Param.In := ParameterInQuery;
     Param.Description :=
       Some (strings.TrimSuffix (Argument.Description arg)
               (" Default: " +:+ Argument.Default arg +:+ "."));
     Param.Schema := Some {|
       Schema.Type_ := Some t;
       Schema.Items :=
         if decide (t = SchemaTypeArray) then Some (Schema.of_type SchemaTypeString) else None;
       Schema.Properties := None; Schema.AdditionalProperties := None;
       Schema.MinItems := None; Schema.MaxItems := None;
       Schema.Default := storedDefault t (Argument.Default arg);
       Schema.Format := None |};
     Param.Required := if Argument.Required arg then Some true else None;
     Param.Deprecated :=
       if strings.Contains (Argument.Description arg) "(DEPRECATED)"
          || strings.HasPrefix (Argument.Description arg) "Removed, "
       then Some true else None;
     Param.Explode := None;
     Param.MapOfAnything :=
       if strings.Contains (Argument.Description arg) "(experimental)"
       then {["x-experimental" := any_bool true]} else ∅ |}.

Definition warningsOf (arg : Argument.t) : list Event :=
  ((if supportedType (Argument.Type_ arg) then []
    else [unsupported_warning (Argument.Type_ arg)])
   ++ (if negb (String.eqb (Argument.Default arg) "")
          && bool_decide ((parseDefault (declaredType (Argument.Type_ arg))
                                        (Argument.Default arg)).2 ≠ None)
       then [default_warning arg] else []))%list.

Definition notFile (arg : Argument.t) : Prop :=
  String.eqb (Argument.Type_ arg) "file" = false.

(** What the single-argument mapper makes of one argument of a group: its
    deprecated flag and the default value of its schema. *)
Definition perArgument_deprecated (arg : Argument.t) : bool :=
  match (genParameterForArgument arg false).2 with
  | Some p => deref_or_false (Param.Deprecated p)
  | None => false
  end.

Definition perArgument_default (arg : Argument.t) : option any :=
  match (genParameterForArgument arg false).2 with
  | Some p => match Param.Schema p with Some s => Schema.Default s | None => None end
  | None => None
  end.

(** An argument has a default value when [arg.Default] is not empty; the
    default value is parseable when moreover the parse for the argument's
    schema type reports no error. *)
Definition hasDefault (arg : Argument.t) : bool :=
  negb (String.eqb (Argument.Default arg) "").

Definition parseableDefault (arg : Argument.t) : bool :=
  hasDefault arg
  && bool_decide ((parseDefault (declaredType (Argument.Type_ arg))
                                (Argument.Default arg)).2 = None).

(** The number of the fields [Items], [Properties] and
    [AdditionalProperties] of a schema node that are set. *)
Definition shapeFields (s : Schema.t) : nat :=
  (match Schema.Items s with Some _ => 1 | None => 0 end
   + match Schema.Properties s with Some _ => 1 | None => 0 end
   + match Schema.AdditionalProperties s with Some _ => 1 | None => 0 end)%nat.

(** Every node of the schema tree has at most one of the three set. *)
Fixpoint singleShape (s : Schema.t) : bool :=
  match s with
  | Schema.mk _ items properties additionalProperties _ _ _ _ =>
      bool_decide (shapeFields s ≤ 1)%nat
      && match items with Some s' => singleShape s' | None => true end
      && match properties with
         | Some ps => bool_decide (map_Forall (λ _ b, b = true) (singleShape <$> ps))
         | None => true
         end
      && match additionalProperties with Some s' => singleShape s' | None => true end
  end.

(** The nesting depth of a value. *)
Fixpoint any_depth (x : any) : nat :=
  match x with
  | any_slice l => S (max_list (any_depth <$> l))
  | any_map m => S (max_list ((map_to_list (any_depth <$> m)).*2))
  | any_ptr (Some y) => S (any_depth y)
  | _ => 0
  end.



(** ** Further definitions used to state properties *)

(** The line that the merged parameter's description has for the argument
    at index [i]. *)
Definition mergedLine (i : nat) (arg : Argument.t) : string :=
  "arg" +:+ strconv.Itoa (Z.of_nat i) +:+ " (" +:+ Argument.Name arg +:+ "): "
  +:+ strings.TrimSpace
        (strings.TrimSuffix (Argument.Description arg)
           (" Default: " +:+ Argument.Default arg +:+ ".")).

(** [check] holds at every node of the schema tree. *)
Fixpoint allNodes (check : Schema.t → bool) (s : Schema.t) : bool :=
  match s with
  | Schema.mk _ items properties additionalProperties _ _ _ _ =>
      check s
      && match items with Some s' => allNodes check s' | None => true end
      && match properties with
         | Some ps => bool_decide (map_Forall (λ _ b, b = true) (allNodes check <$> ps))
         | None => true
         end
      && match additionalProperties with Some s' => allNodes check s' | None => true end
  end.

(** The node has a type. *)
Definition hasType (s : Schema.t) : bool :=
  match Schema.Type_ s with Some _ => true | None => false end.

(** The node has none of [MinItems], [MaxItems], [Default] and [Format]. *)
Definition noConstraints (s : Schema.t) : bool :=
  match Schema.MinItems s, Schema.MaxItems s, Schema.Default s, Schema.Format s with
  | None, None, None, None => true
  | _, _, _, _ => false
  end.

(** The placeholder strings that the inferencer knows. *)
Definition knownTags : list string :=
  ["<bool>"; "<int>"; "<uint>"; "<int32>"; "<uint32>"; "<int64>"; "<uint64>";
   "<duration-ns>"; "<timestamp>"; "<float32>"; "<float64>"; "<string>"; "<peer-id>";
   "peer-id"; "<cid-string>"; "<multiaddr-string>"; "<array>"; "<object>"].

(** The arguments of an endpoint that are files, and the others. *)
Definition bodyArgsOf (endp : Endpoint.t) : list Argument.t :=
  List.filter (λ arg, String.eqb (Argument.Type_ arg) "file") (Endpoint.Arguments endp).

Definition otherArgsOf (endp : Endpoint.t) : list Argument.t :=
  List.filter (λ arg, negb (String.eqb (Argument.Type_ arg) "file"))
              (Endpoint.Arguments endp).

Definition isFile (arg : Argument.t) : Prop := Argument.Type_ arg = "file".


(** The warnings of the inferencer. *)
Definition unknownTag_warning (v : string) : Event :=
  log_Printf ("WARN: Unsupported type for response: %s" +:+ LF) (any_string v).

Definition unknownValue_warning (x : any) : Event :=
  log_Printf ("WARN: Unsupported type for argument: %s" +:+ LF) x.

Definition array_warning : Event :=
  log_Println [any_string "WARN: Couldn't determine item type of array"].

Definition object_warning : Event :=
  log_Println [any_string "WARN: Couldn't determine item type of object"].


(** The arguments before the first file. *)
Fixpoint untilFile (args : list Argument.t) : list Argument.t :=
  match args with
  | [] => []
  | arg :: args' =>
      if String.eqb (Argument.Type_ arg) "file" then [] else arg :: untilFile args'
  end.

(** No argument of the list is a file. *)
Definition noFile (args : list Argument.t) : bool :=
  forallb (λ arg, negb (String.eqb (Argument.Type_ arg) "file")) args.

(** What the single-argument mapper prints for the arguments, in order. *)
Definition argumentEvents (args : list Argument.t) : list Event :=
  concat ((λ arg, (genParameterForArgument arg false).1) <$> args).


(** * Checks on concrete inputs *)

Example TrimSuffix_ex :
  strings.TrimSuffix "Timeout. Default: 30." " Default: 30." = "Timeout.".
Proof. reflexivity. Qed.

Example TrimSpace_ex : strings.TrimSpace "  a b
 " = "a b".
Proof. reflexivity. Qed.

Example ReplaceAll_ex : strings.ReplaceAll "api/v0/add" "/" "-" = "api-v0-add".
Proof. reflexivity. Qed.

Example Itoa_ex : strconv.Itoa 12 = "12".
Proof. reflexivity. Qed.

Example ParseInt_30 : strconv.ParseInt "30" 32 = (30, None).
Proof. reflexivity. Qed.

Example ParseInt_min : strconv.ParseInt "-2147483648" 32 = (-2147483648, None).
Proof. reflexivity. Qed.

Example ParseInt_over : strconv.ParseInt "2147483648" 32 = (2147483647, Some strconv.ErrRange).
Proof. reflexivity. Qed.

Example ParseInt_junk : strconv.ParseInt "3x" 32 = (0, Some strconv.ErrSyntax).
Proof. reflexivity. Qed.

Example timeout_ex :
  genParameterForArgument
    (Argument.mk "timeout" "Timeout. Default: 30." "int" false "30") false
  = ([], Some (Param.mk "timeout" ParameterInQuery (Some "Timeout.")
                 (Some (Schema.WithDefault (any_int64 30) (Schema.of_type SchemaTypeInteger)))
                 None None None ∅)).
Proof. reflexivity. Qed.

Example multi_ex :
  genParameterForMultiArgument
    [Argument.mk "a" "first" "string" false ""; Argument.mk "b" " second " "string" true ""]
  = ([], Some (Param.mk "arg" ParameterInQuery
                 (Some ("arg0 (a): first" +:+ LF +:+ "arg1 (b): second"))
                 (Some (Schema.mk (Some SchemaTypeArray) (Some (Schema.of_type SchemaTypeString))
                          None None (Some 2) (Some 2) None None))
                 (Some true) None (Some true) ∅)).
Proof. reflexivity. Qed.

Example multi_file_panics :
  (genParameterForMultiArgument
     [Argument.mk "a" "" "string" false ""; Argument.mk "f" "" "file" false ""]).2 = None.
Proof. reflexivity. Qed.

Example wildcard_ex :
  (genSchemaForResponse (any_map {["<string>" := any_string "<bool>"]})).2
  = Some (Schema.mk (Some SchemaTypeObject) None None
            (Some (Schema.of_type SchemaTypeBoolean)) None None None None).
Proof. vm_compute. reflexivity. Qed.

Example object_ex :
  (genSchemaForResponse
     (any_map (<["Keys" := any_slice [any_string "<string>"]]> {["N" := any_string "<int>"]}))).2
  = Some (Schema.mk (Some SchemaTypeObject) None
            (Some (<["Keys" := Schema.set_Items (Schema.of_type SchemaTypeString)
                                 (Schema.of_type SchemaTypeArray)]>
                     {["N" := Schema.of_type SchemaTypeInteger]}))
            None None None None None).
Proof. vm_compute. reflexivity. Qed.

Example singleShape_ex :
  singleShape (Schema.mk None (Some Schema.zero)
                 (Some {["a" := Schema.zero]}) None None None None None) = false.
Proof. vm_compute. reflexivity. Qed.

Example singleShape_ex2 :
  singleShape (Schema.mk None None
     (Some {["a" := Schema.mk None (Some Schema.zero) None (Some Schema.zero) None None None None]})
     None None None None None) = false.
Proof. vm_compute. reflexivity. Qed.

Example singleShape_ex3 :
  singleShape (Schema.mk None None
     (Some {["a" := Schema.mk None (Some Schema.zero) None None None None None None]})
     None None None None None) = true.
Proof. vm_compute. reflexivity. Qed.

(** The document builder on the operations of three endpoints: one
    without a response, one with two options of the same name, and one
    with a placeholder in its name. *)
Example AddOperation_model_ex :
  let op endp := (GenerateEndpoint_op (λ _, "") (λ _, inr "") endp).2 in
  let add endp :=
    (λ op, AddOperation_model (Spec.mk "3.0.3" (Info.mk "" "" None) None ∅) "POST"
             (Endpoint.Name endp) op) <$> op endp in
  let quiet := Argument.mk "quiet" "Write minimal output." "bool" false "" in
  let shutdown := Endpoint.mk "/api/v0/shutdown" "Shut down the daemon." [] [] "" Active in
  snd <$> add shutdown = Some None
  ∧ (r ← add shutdown; item ← Spec.Paths r.1 !! "/api/v0/shutdown";
     Operation.Responses <$> item !! "post")
    = Some {["204" := Response.mk "No Content" ∅]}
  ∧ (snd <$> add (Endpoint.mk "/api/v0/ls" "List." [] [quiet; quiet] "" Active))
    = Some (Some "duplicate parameter in query: quiet")
  ∧ (snd <$> add (Endpoint.mk "/api/v0/{key}/{key}" "Get." [] [] "" Active))
    = Some (Some "undefined path parameter: key").
Proof. repeat split; vm_compute; reflexivity. Qed.

(** * Properties *)

(** ** The printing monad *)

Lemma W_bind_fst {A B} (m : W A) (f : A → W B) : (m ≫= f).1 = (m.1 ++ (f m.2).1)%list.
Proof. destruct m as [o a]; simpl. unfold mbind, W_bind. destruct (f a); reflexivity. Qed.

Lemma W_bind_snd {A B} (m : W A) (f : A → W B) : (m ≫= f).2 = (f m.2).2.
Proof. destruct m as [o a]; simpl. unfold mbind, W_bind. destruct (f a); reflexivity. Qed.

Lemma W_eta {A} (m : W A) : m = (m.1, m.2).
Proof. by destruct m. Qed.

Ltac W_simpl :=
  repeat (rewrite ?W_bind_fst, ?W_bind_snd; cbn [mret W_ret tell fst snd]).

(** ** The single-argument mapper *)

Lemma genParameterForArgument_file arg aliasToArg :
  String.eqb (Argument.Type_ arg) "file" = true →
  genParameterForArgument arg aliasToArg = ([], None).
Proof.
  intros E. apply String.eqb_eq in E. unfold genParameterForArgument.
  rewrite E. reflexivity.
Qed.

Lemma genParameterForArgument_not_file arg aliasToArg :
  notFile arg →
  genParameterForArgument arg aliasToArg
  = (warningsOf arg, Some (parameterOf arg aliasToArg)).
Proof.
  unfold notFile. intros E. rewrite (W_eta (genParameterForArgument _ _)).
  unfold genParameterForArgument, warningsOf, parameterOf, declaredType, supportedType,
    storedDefault.
  cbn [existsb]. rewrite E.
  destruct arg as [name desc ty req dflt]; cbn [Argument.Type_ Argument.Default
    Argument.Name Argument.Required Argument.Description] in *.
  destruct (String.eqb ty "bool"); [|destruct (String.eqb ty "int");
    [|destruct (String.eqb ty "uint"); [|destruct (String.eqb ty "int64");
    [|destruct (String.eqb ty "string"); [|destruct (String.eqb ty "array")]]]]];
    cbn [orb]; W_simpl;
    (destruct (String.eqb dflt ""); cbn [negb andb]; W_simpl;
     [|unfold parseDefault; cbn [fst snd];
       try destruct ((strconv.ParseBool dflt).2);
       try destruct ((strconv.ParseInt dflt 32).2); W_simpl]);
    destruct req; reflexivity.
Qed.

(** C6. The declared type of an argument is mapped by a fixed table: a
    "file" argument gives no parameter (and prints nothing); "bool" gives
    a boolean schema, "int", "uint" and "int64" an integer one, "string" a
    string one, "array" an array of strings; any other declared type gives
    a parameter all the same, of type string, and the first thing printed
    is the warning about the unsupported type, which is not printed for
    the types of the table. *)
Theorem genParameterForArgument_type_table (arg : Argument.t) (aliasToArg : bool) :
  let ty := Argument.Type_ arg in
  let r := genParameterForArgument arg aliasToArg in
  if String.eqb ty "file" then r = ([], None)
  else ∃ p s, r.2 = Some p ∧ Param.Schema p = Some s ∧
    Schema.Type_ s = Some (
       if String.eqb ty "bool" then SchemaTypeBoolean
       else if existsb (String.eqb ty) ["int"; "uint"; "int64"] then SchemaTypeInteger
       else if String.eqb ty "string" then SchemaTypeString
       else if String.eqb ty "array" then SchemaTypeArray
       else SchemaTypeString) ∧
    Schema.Items s =
      (if String.eqb ty "array" then Some (Schema.of_type SchemaTypeString) else None) ∧
    (if existsb (String.eqb ty) ["bool"; "int"; "uint"; "int64"; "string"; "array"]
     then unsupported_warning ty ∉ r.1
     else head r.1 = Some (unsupported_warning ty)).
Proof.
  intros ty r. subst r.
  destruct (String.eqb ty "file") eqn:Efile.
  { by apply genParameterForArgument_file. }
  rewrite genParameterForArgument_not_file by exact Efile.
  eexists _, _. split; [reflexivity|]. split; [reflexivity|].
  cbn [Schema.Type_ Schema.Items fst]. unfold warningsOf, supportedType, declaredType.
  fold ty. clearbody ty. clear Efile. cbn [existsb].
  assert (Hnot : ∀ (b : bool) w,
            unsupported_warning w ∉ (if b then [default_warning arg] else [])).
  { intros [] w; [|by apply not_elem_of_nil].
    intros H. apply list_elem_of_singleton in H. discriminate H. }
  destruct (String.eqb_spec ty "bool") as [->|_];
    [cbn; repeat split; solve [reflexivity | apply Hnot]|].
  destruct (String.eqb_spec ty "int") as [->|_];
    [cbn; repeat split; solve [reflexivity | apply Hnot]|].
  destruct (String.eqb_spec ty "uint") as [->|_];
    [cbn; repeat split; solve [reflexivity | apply Hnot]|].
  destruct (String.eqb_spec ty "int64") as [->|_];
    [cbn; repeat split; solve [reflexivity | apply Hnot]|].
  destruct (String.eqb_spec ty "string") as [->|_];
    [cbn; repeat split; solve [reflexivity | apply Hnot]|].
  destruct (String.eqb_spec ty "array") as [->|_];
    cbn; repeat split; solve [reflexivity | apply Hnot].
Qed.

Lemma ParseUint_loop_nonneg bitSize cs n :
  0 ≤ n → (strconv.ParseUint_loop bitSize cs n).2 = None →
  0 ≤ (strconv.ParseUint_loop bitSize cs n).1.
Proof.
  revert n. induction cs as [|c cs IH]; intros n Hn; cbn [strconv.ParseUint_loop].
  - done.
  - destruct (_ && _)%N; [|done].
    destruct (_ <=? n); [done|].
    destruct (_ || _); [done|].
    apply IH. apply Z.mod_pos_bound. done.
Qed.

Lemma ParseUint_loop_range bitSize cs n :
  (strconv.ParseUint_loop bitSize cs n).2 = Some strconv.ErrRange →
  (strconv.ParseUint_loop bitSize cs n).1 = 2 ^ bitSize - 1.
Proof.
  revert n. induction cs as [|c cs IH]; intros n; cbn [strconv.ParseUint_loop].
  - done.
  - destruct (_ && _)%N; [|done].
    destruct (_ <=? n); [done|].
    destruct (_ || _); [done|]. apply IH.
Qed.

(** A default value that [strconv.ParseInt(_, 10, 32)] accepts is a 32-bit
    signed integer. *)
Lemma ParseInt_32_range s n :
  strconv.ParseInt s 32 = (n, None) → - 2 ^ 31 ≤ n < 2 ^ 31.
Proof.
  unfold strconv.ParseInt. destruct s as [|c s]; [done|].
  match goal with |- context [strconv.ParseUint ?x 32] => set (s' := x) end.
  assert (Hun : (strconv.ParseUint s' 32).2 = None → 0 ≤ (strconv.ParseUint s' 32).1).
  { unfold strconv.ParseUint. destruct (String.eqb s' ""); [done|].
    by apply ParseUint_loop_nonneg. }
  assert (Hrg : (strconv.ParseUint s' 32).2 = Some strconv.ErrRange →
                (strconv.ParseUint s' 32).1 = 2 ^ 32 - 1).
  { unfold strconv.ParseUint. destruct (String.eqb s' ""); [done|].
    by apply ParseUint_loop_range. }
  destruct (strconv.ParseUint s' 32) as [un [e|]]; cbn [fst snd] in Hun, Hrg;
    [destruct e; [done|]|].
  - rewrite (Hrg eq_refl). destruct (Ascii.eqb c "-"); done.
  - specialize (Hun eq_refl). change (2 ^ (32 - 1)) with 2147483648.
    destruct (Ascii.eqb c "-"); cbn [negb andb];
      repeat (match goal with
              | |- context [?a <=? ?b] => destruct (Z.leb_spec a b)
              | |- context [?a <? ?b] => destruct (Z.ltb_spec a b)
              end; cbn [andb]);
      try done; intros [= <-]; lia.
Qed.

Lemma default_warning_not_unsupported arg ty (b : bool) :
  default_warning arg ∉ (if b then [] else [unsupported_warning ty]).
Proof.
  destruct b; [by apply not_elem_of_nil|].
  intros H. apply list_elem_of_singleton in H. discriminate H.
Qed.

(** C7. An argument that is not a file and has a default value: the
    default is parsed as its schema type asks (a boolean by
    [strconv.ParseBool], an integer by [strconv.ParseInt] in base 10 with
    32 bits, so that an accepted value is a 32-bit signed integer) and
    stored in the schema; when the parse fails the string itself is stored
    and the warning is printed; for the other types the string is stored.
    The description is the argument's without the suffix
    [" Default: <value>."]. The argument "timeout" of type "int" with the
    default "30" and the description "Timeout. Default: 30.", mapped under
    its own name, gives the parameter "timeout" with an integer schema,
    the default 30 and the description "Timeout.". *)
Theorem genParameterForArgument_default :
  (∀ (arg : Argument.t) (aliasToArg : bool),
     notFile arg → Argument.Default arg ≠ "" →
     let r := genParameterForArgument arg aliasToArg in
     let dflt := Argument.Default arg in
     ∃ p s t, r.2 = Some p ∧ Param.Schema p = Some s ∧ Schema.Type_ s = Some t ∧
       Param.Description p =
         Some (strings.TrimSuffix (Argument.Description arg) (" Default: " +:+ dflt +:+ ".")) ∧
       match t with
       | SchemaTypeBoolean =>
           match strconv.ParseBool dflt with
           | (b, None) =>
               Schema.Default s = Some (any_bool b) ∧ default_warning arg ∉ r.1
           | (_, Some _) =>
               Schema.Default s = Some (any_string dflt) ∧ default_warning arg ∈ r.1
           end
       | SchemaTypeInteger =>
           match strconv.ParseInt dflt 32 with
           | (n, None) =>
               Schema.Default s = Some (any_int64 n) ∧ - 2 ^ 31 ≤ n < 2 ^ 31 ∧
               default_warning arg ∉ r.1
           | (_, Some _) =>
               Schema.Default s = Some (any_string dflt) ∧ default_warning arg ∈ r.1
           end
       | _ => Schema.Default s = Some (any_string dflt) ∧ default_warning arg ∉ r.1
       end)
  ∧ (∀ required : bool,
       ∃ p s,
         genParameterForArgument
           (Argument.mk "timeout" "Timeout. Default: 30." "int" required "30") false
         = ([], Some p) ∧
         Param.Name p = "timeout" ∧ Param.Description p = Some "Timeout." ∧
         Param.Schema p = Some s ∧ Schema.Type_ s = Some SchemaTypeInteger ∧
         Schema.Default s = Some (any_int64 30)).
Proof.
  split.
  - intros arg aliasToArg Hfile Hdflt r dflt. subst r.
    rewrite genParameterForArgument_not_file by exact Hfile.
    eexists _, _, _. split; [reflexivity|]. split; [reflexivity|]. split; [reflexivity|].
    split; [reflexivity|].
    cbn [fst Param.Schema Schema.Default]. unfold warningsOf, storedDefault. fold dflt.
    apply String.eqb_neq in Hdflt. fold dflt in Hdflt. rewrite Hdflt. cbn [negb andb].
    set (b := supportedType _).
    pose proof (default_warning_not_unsupported arg (Argument.Type_ arg) b) as Hb.
    destruct (declaredType (Argument.Type_ arg)); cbn [parseDefault fst snd].
    1, 4, 5, 6: rewrite bool_decide_eq_false_2 by (intros H; by apply H);
      rewrite app_nil_r; done.
    + destruct (strconv.ParseBool dflt) as [v [e|]]; cbn [fst snd].
      * rewrite bool_decide_eq_true_2 by done. split; [done|].
        apply elem_of_app. right. by apply list_elem_of_singleton.
      * rewrite bool_decide_eq_false_2 by (intros H; by apply H).
        rewrite app_nil_r. done.
    + destruct (strconv.ParseInt dflt 32) as [v [e|]] eqn:Hparse; cbn [fst snd].
      * rewrite bool_decide_eq_true_2 by done. split; [done|].
        apply elem_of_app. right. by apply list_elem_of_singleton.
      * rewrite bool_decide_eq_false_2 by (intros H; by apply H).
        rewrite app_nil_r. split; [done|]. split; [|done].
        by apply ParseInt_32_range with dflt.
  - intros required. eexists _, _.
    split; [by rewrite genParameterForArgument_not_file|]. by cbn.
Qed.

Lemma genParameterForArgument_default_witness :
  ∃ p s t,
    (genParameterForArgument (Argument.mk "verbose" "Be loud. Default: maybe." "bool" false "maybe")
                             false).2 = Some p
    ∧ Param.Schema p = Some s ∧ Schema.Type_ s = Some t
    ∧ Param.Description p = Some "Be loud."
    ∧ t = SchemaTypeBoolean
    ∧ Schema.Default s = Some (any_string "maybe").
Proof.
  destruct (proj1 genParameterForArgument_default
              (Argument.mk "verbose" "Be loud. Default: maybe." "bool" false "maybe") false)
    as (p & s & t & Hp & Hs & Ht & Hd & Hcase).
  - reflexivity.
  - discriminate.
  - exists p, s, t. repeat split; try assumption.
    + cbn in Hp. injection Hp as <-. cbn in Hs. injection Hs as <-. cbn in Ht.
      by injection Ht as <-.
    + cbn in Hp. injection Hp as <-. cbn in Hs. injection Hs as <-. reflexivity.
Defined.

(** ** More on the printing monad *)

Lemma W_ext {A} (m1 m2 : W A) : m1.1 = m2.1 → m1.2 = m2.2 → m1 = m2.
Proof. destruct m1, m2; cbn; congruence. Qed.

Lemma W_left_id {A B} (a : A) (f : A → W B) : mret a ≫= f = f a.
Proof. apply W_ext; by W_simpl. Qed.

Lemma W_right_id {A} (m : W A) : m ≫= mret = m.
Proof. apply W_ext; W_simpl; [by rewrite app_nil_r|done]. Qed.

Lemma W_assoc {A B C} (m : W A) (f : A → W B) (g : B → W C) :
  (m ≫= f) ≫= g = m ≫= (λ a, f a ≫= g).
Proof. apply W_ext; W_simpl; [by rewrite app_nil_r || by rewrite app_assoc|done]. Qed.

Lemma W_bind_ext {A B} (m : W A) (f g : A → W B) :
  (∀ a, f a = g a) → m ≫= f = m ≫= g.
Proof. intros Hfg. apply W_ext; W_simpl; by rewrite Hfg. Qed.

Lemma W_bind_pair {A B} (out : list Event) (a : A) (f : A → W B) :
  (out, a) ≫= f = ((out ++ (f a).1)%list, (f a).2).
Proof. apply W_ext; by W_simpl. Qed.

Lemma W_bind_ret {A B} (m : W A) (f : A → B) : m ≫= (λ a, mret (f a)) = (m.1, f m.2).
Proof. apply W_ext; W_simpl; [by rewrite app_nil_r|done]. Qed.

(** ** The multi-argument mapper *)

Lemma perArgument_deprecated_not_file arg :
  notFile arg →
  perArgument_deprecated arg = deref_or_false (Param.Deprecated (parameterOf arg false)).
Proof.
  intros H. unfold perArgument_deprecated. by rewrite genParameterForArgument_not_file.
Qed.

Lemma perArgument_default_not_file arg :
  notFile arg →
  perArgument_default arg
  = storedDefault (declaredType (Argument.Type_ arg)) (Argument.Default arg).
Proof.
  intros H. unfold perArgument_default. by rewrite genParameterForArgument_not_file.
Qed.

Lemma storedDefault_hasDefault arg :
  bool_decide (storedDefault (declaredType (Argument.Type_ arg)) (Argument.Default arg) ≠ None)
  = hasDefault arg.
Proof.
  unfold storedDefault, hasDefault. destruct (String.eqb _ ""); cbn [negb].
  - by apply bool_decide_eq_false_2; intros H; apply H.
  - apply bool_decide_eq_true_2. by destruct (parseDefault _ _).2.
Qed.

(** The loop on arguments none of which is a file: it does not panic, and
    its variables end up as follows. *)
Lemma genParameterForMultiArgument_loop_not_file args : ∀ i vars,
  Forall notFile args →
  ∃ vars', (genParameterForMultiArgument_loop i args vars).2 = Some vars'
    ∧ List.length (params vars') = (List.length (params vars) + List.length args)%nat
    ∧ defaults vars' = (defaults vars ++ (any_ptr ∘ perArgument_default <$> args))%list
    ∧ anyDefault vars' = anyDefault vars || existsb hasDefault args
    ∧ deprecated vars' = deprecated vars || existsb perArgument_deprecated args
    ∧ required vars' = from_option Argument.Required (required vars) (last args).
Proof.
  induction args as [|arg args IH]; intros i vars Hall.
  - exists vars. cbn. rewrite app_nil_r, !orb_false_r. repeat split; auto with lia.
  - apply Forall_cons in Hall as [Harg Hall].
    cbn [genParameterForMultiArgument_loop]. W_simpl.
    rewrite genParameterForArgument_not_file by exact Harg. cbn [fst snd].
    cbn [parameterOf Param.Description Param.Schema].
    match goal with |- context [genParameterForMultiArgument_loop (S i) args ?v] =>
      destruct (IH (S i) v Hall) as (vars' & Hrun & Hlen & Hdef & Hany & Hdep & Hreq)
    end.
    exists vars'. split; [exact Hrun|].
    cbn [params defaults anyDefault deprecated required] in *.
    rewrite Hlen, Hdef, Hany, Hdep, Hreq.
    rewrite length_app. cbn [List.length fmap list_fmap existsb compose].
    rewrite <- !app_assoc. cbn [app Schema.Default].
    rewrite perArgument_default_not_file, perArgument_deprecated_not_file by exact Harg.
    rewrite storedDefault_hasDefault, !orb_assoc.
    repeat split; try lia.
    destruct args as [|arg' args].
    + cbn [last from_option parameterOf Param.Required Param.set_Description].
      by destruct (Argument.Required arg).
    + change (last (arg :: arg' :: args)) with (last (arg' :: args)).
      destruct (last (arg' :: args)) eqn:E; [done|]. by apply last_None in E.
Qed.

(** The merged parameter of arguments none of which is a file. *)
Lemma genParameterForMultiArgument_not_file args :
  Forall notFile args →
  ∃ p s, (genParameterForMultiArgument args).2 = Some p
    ∧ Param.Name p = "arg" ∧ Param.Explode p = Some true
    ∧ Param.Schema p = Some s
    ∧ Schema.Type_ s = Some SchemaTypeArray
    ∧ Schema.Items s = Some (Schema.of_type SchemaTypeString)
    ∧ Schema.MinItems s = Some (Z.of_nat (List.length args))
    ∧ Schema.MaxItems s = Some (Z.of_nat (List.length args))
    ∧ Schema.Default s =
        (if existsb hasDefault args
         then Some (any_slice (any_ptr ∘ perArgument_default <$> args))
         else None)
    ∧ Param.Deprecated p =
        (if existsb perArgument_deprecated args then Some true else None)
    ∧ Param.Required p =
        (if from_option Argument.Required false (last args) then Some true else None).
Proof.
  intros Hall. unfold genParameterForMultiArgument. W_simpl.
  destruct (genParameterForMultiArgument_loop_not_file args 0
              (mkMultiVars [] [] false [] false false) Hall)
    as (vars' & Hrun & Hlen & Hdef & Hany & Hdep & Hreq).
  rewrite Hrun. cbn [mret W_ret snd]. cbn in Hlen, Hdef, Hany, Hdep, Hreq.
  eexists _, _. split; [reflexivity|]. cbn [Param.Name Param.Explode Param.Schema
    Param.Deprecated Param.Required].
  do 3 (split; [reflexivity|]).
  rewrite Hlen, Hdef, Hany, Hdep, Hreq.
  destruct (existsb hasDefault args); cbn [Schema.WithDefault Schema.Type_ Schema.Items
    Schema.MinItems Schema.MaxItems Schema.Default];
    (do 5 (split; [reflexivity|])); split.
  all: try by destruct (existsb perArgument_deprecated args).
  all: by destruct (from_option _ _ _).
Qed.

(** C3. The merged parameter of N arguments none of which is a file has an
    array schema with [MinItems] and [MaxItems] both N. *)
Theorem genParameterForMultiArgument_item_count (args : list Argument.t) :
  Forall notFile args →
  ∃ p s, (genParameterForMultiArgument args).2 = Some p
    ∧ Param.Schema p = Some s
    ∧ Schema.Type_ s = Some SchemaTypeArray
    ∧ Schema.MinItems s = Some (Z.of_nat (List.length args))
    ∧ Schema.MaxItems s = Some (Z.of_nat (List.length args)).
Proof.
  intros Hall.
  destruct (genParameterForMultiArgument_not_file args Hall)
    as (p & s & Hp & _ & _ & Hs & Hty & _ & Hmin & Hmax & _).
  by exists p, s.
Qed.

Lemma genParameterForMultiArgument_item_count_witness :
  ∃ p s,
    (genParameterForMultiArgument
       [Argument.mk "key" "" "string" true ""; Argument.mk "value" "" "string" true "";
        Argument.mk "ttl" "" "int" false ""]).2 = Some p
    ∧ Param.Schema p = Some s
    ∧ Schema.Type_ s = Some SchemaTypeArray
    ∧ Schema.MinItems s = Some 3
    ∧ Schema.MaxItems s = Some 3.
Proof.
  apply (genParameterForMultiArgument_item_count
           [Argument.mk "key" "" "string" true ""; Argument.mk "value" "" "string" true "";
            Argument.mk "ttl" "" "int" false ""]).
  repeat constructor.
Defined.

(** C10. The item schema of the merged parameter is of type string,
    whatever the declared types of the arguments are. *)
Theorem genParameterForMultiArgument_string_items (args : list Argument.t) :
  Forall notFile args →
  ∃ p s, (genParameterForMultiArgument args).2 = Some p
    ∧ Param.Schema p = Some s
    ∧ Schema.Type_ s = Some SchemaTypeArray
    ∧ Schema.Items s = Some (Schema.of_type SchemaTypeString).
Proof.
  intros Hall.
  destruct (genParameterForMultiArgument_not_file args Hall)
    as (p & s & Hp & _ & _ & Hs & Hty & Hitems & _).
  by exists p, s.
Qed.

Lemma genParameterForMultiArgument_string_items_witness :
  ∃ p s,
    (genParameterForMultiArgument
       [Argument.mk "offset" "" "int64" true ""; Argument.mk "count" "" "int" true ""]).2
    = Some p
    ∧ Param.Schema p = Some s
    ∧ Schema.Type_ s = Some SchemaTypeArray
    ∧ Schema.Items s = Some (Schema.of_type SchemaTypeString).
Proof.
  apply (genParameterForMultiArgument_string_items
           [Argument.mk "offset" "" "int64" true ""; Argument.mk "count" "" "int" true ""]).
  repeat constructor.
Defined.

(** C5, as the code has it. The merged parameter is required exactly when
    the last argument is; it is deprecated exactly when the parameter of
    one of the arguments is; and it has a default, the list of the default
    values (or nil pointers) of the arguments' parameters in order,
    exactly when one of the arguments has a default value, whether that
    value could be parsed or not. *)
Theorem genParameterForMultiArgument_flags (args : list Argument.t) :
  Forall notFile args →
  ∃ p s, (genParameterForMultiArgument args).2 = Some p
    ∧ Param.Schema p = Some s
    ∧ Param.Required p =
        (if from_option Argument.Required false (last args) then Some true else None)
    ∧ Param.Deprecated p =
        (if existsb perArgument_deprecated args then Some true else None)
    ∧ Schema.Default s =
        (if existsb hasDefault args
         then Some (any_slice (any_ptr ∘ perArgument_default <$> args))
         else None).
Proof.
  intros Hall.
  destruct (genParameterForMultiArgument_not_file args Hall)
    as (p & s & Hp & _ & _ & Hs & _ & _ & _ & _ & Hdef & Hdep & Hreq).
  by exists p, s.
Qed.

Lemma genParameterForMultiArgument_flags_witness :
  ∃ p s,
    (genParameterForMultiArgument
       [Argument.mk "a" "(DEPRECATED) first" "bool" true "yes";
        Argument.mk "b" "second" "int" false "7";
        Argument.mk "c" "third" "string" false ""]).2 = Some p
    ∧ Param.Schema p = Some s
    ∧ Param.Required p = None
    ∧ Param.Deprecated p = Some true
    ∧ Schema.Default s =
        Some (any_slice [any_ptr (Some (any_string "yes")); any_ptr (Some (any_int64 7));
                         any_ptr None]).
Proof.
  apply (genParameterForMultiArgument_flags
           [Argument.mk "a" "(DEPRECATED) first" "bool" true "yes";
            Argument.mk "b" "second" "int" false "7";
            Argument.mk "c" "third" "string" false ""]).
  repeat constructor.
Defined.

(** C5 as stated fails: of two integer arguments the first has the default
    "abc", which [strconv.ParseInt] rejects, and the second has none. No
    argument has a parseable default, and the merged parameter has a
    default list all the same, with the string "abc" in the first slot. *)
Lemma genParameterForMultiArgument_unparseable_default :
  let args := [Argument.mk "a" "" "int" false "abc"; Argument.mk "b" "" "int" false ""] in
  existsb parseableDefault args = false
  ∧ ∃ p s, (genParameterForMultiArgument args).2 = Some p
      ∧ Param.Schema p = Some s
      ∧ Schema.Default s = Some (any_slice [any_ptr (Some (any_string "abc")); any_ptr None]).
Proof.
  split; [reflexivity|]. eexists _, _. repeat split.
Qed.

(** ** The response schema inferencer *)

Lemma map_size_1_singleton {A} (m : gmap string A) :
  size m = 1%nat → ∃ k v, m = {[k := v]}.
Proof.
  intros Hsize. rewrite <- length_map_to_list in Hsize.
  destruct (map_to_list m) as [|[k v] [|? ?]] eqn:E; try discriminate Hsize.
  exists k, v. rewrite <- (list_to_map_to_list m), E. reflexivity.
Qed.

Lemma firstKey_singleton {A} k (v : A) : firstKey ({[k := v]} : gmap string A) = k.
Proof. unfold firstKey. by rewrite map_to_list_singleton. Qed.

(** The two cases of a mapping. *)
Lemma genSchemaForResponse_wildcard X :
  (genSchemaForResponse (any_map {["<string>" := X]})).2
  = Some {|
      Schema.Type_ := Some SchemaTypeObject;
      Schema.AdditionalProperties := Some (default Schema.zero (genSchemaForResponse X).2);
      Schema.Items := None; Schema.Properties := None;
      Schema.MinItems := None; Schema.MaxItems := None;
      Schema.Default := None; Schema.Format := None |}.
Proof.
  cbn [genSchemaForResponse]. rewrite map_size_singleton, firstKey_singleton.
  rewrite bool_decide_eq_true_2 by done. cbn [String.eqb Ascii.eqb Bool.eqb andb].
  W_simpl. rewrite map_fmap_singleton, lookup_singleton_eq. cbn [default from_option id].
  destruct (genSchemaForResponse X).2; reflexivity.
Qed.

Lemma genSchemaForResponse_fields (m : gmap string any) :
  (∀ X, m ≠ {["<string>" := X]}) →
  (genSchemaForResponse (any_map m)).2
  = Some {|
      Schema.Type_ := Some SchemaTypeObject;
      Schema.Properties :=
        Some ((λ v, default Schema.zero (genSchemaForResponse v).2) <$> m);
      Schema.Items := None; Schema.AdditionalProperties := None;
      Schema.MinItems := None; Schema.MaxItems := None;
      Schema.Default := None; Schema.Format := None |}.
Proof.
  intros Hm. cbn [genSchemaForResponse].
  assert (bool_decide (size m = 1%nat) && String.eqb (firstKey m) "<string>" = false) as ->.
  { apply andb_false_iff. destruct (decide (size m = 1%nat)) as [Hsize|Hsize].
    - right. apply map_size_1_singleton in Hsize as (k & v & ->).
      rewrite firstKey_singleton. apply String.eqb_neq. intros ->. by apply (Hm v).
    - left. by apply bool_decide_eq_false_2. }
  W_simpl. unfold range_map. cbn [snd]. by rewrite <- !map_fmap_compose.
Qed.

(** The case of a sequence. *)
Lemma genSchemaForResponse_slice (v : list any) :
  (genSchemaForResponse (any_slice v)).2
  = Some (Schema.set_Items
            (match v with
             | [v0] => default Schema.zero (genSchemaForResponse v0).2
             | _ => Schema.zero
             end)
            (Schema.of_type SchemaTypeArray)).
Proof.
  cbn [genSchemaForResponse]. W_simpl.
  destruct v as [|v0 [|v1 v]]; cbn [mret W_ret snd]; try reflexivity.
  by destruct (genSchemaForResponse v0).2.
Qed.

(** C2, as the code has it. A sequence gives an array schema. Its item
    schema is the one inferred from the element when the sequence has
    exactly one element and that element can be classified; it is the
    unconstrained schema in every other case: an empty sequence, one of
    two or more elements, one whose only element cannot be classified. *)
Theorem genSchemaForResponse_sequence (v : list any) :
  ∃ items : Schema.t,
    (genSchemaForResponse (any_slice v)).2
    = Some {|
        Schema.Type_ := Some SchemaTypeArray;
        Schema.Items := Some items;
        Schema.Properties := None; Schema.AdditionalProperties := None;
        Schema.MinItems := None; Schema.MaxItems := None;
        Schema.Default := None; Schema.Format := None |}
    ∧ items = match v with
              | [v0] =>
                  match (genSchemaForResponse v0).2 with
                  | Some s => s
                  | None => Schema.zero
                  end
              | _ => Schema.zero
              end.
Proof.
  eexists. split; [apply genSchemaForResponse_slice|].
  destruct v as [|v0 [|v1 v]]; reflexivity.
Qed.

(** C2 as stated fails: a sequence of two booleans is not empty and its
    first element is classified as a boolean, but the item schema of the
    result is the unconstrained one. *)
Lemma genSchemaForResponse_two_elements :
  let v := [any_string "<bool>"; any_string "<bool>"] in
  (genSchemaForResponse (any_string "<bool>")).2 = Some (Schema.of_type SchemaTypeBoolean)
  ∧ (genSchemaForResponse (any_slice v)).2
    = Some (Schema.set_Items Schema.zero (Schema.of_type SchemaTypeArray))
  ∧ Schema.zero ≠ Schema.of_type SchemaTypeBoolean.
Proof. repeat split. discriminate. Qed.

(** C4, as the code has it. A mapping whose only entry has the key
    "<string>" gives an object schema whose additional-properties schema
    is the one inferred from the value of that entry, or the unconstrained
    schema when that value cannot be classified. Any other mapping gives
    an object schema with one property for each key, which is the schema
    inferred from the value at that key, or the unconstrained schema when
    that value cannot be classified. *)
Theorem genSchemaForResponse_mapping :
  (∀ X : any,
     (genSchemaForResponse (any_map {["<string>" := X]})).2
     = Some {|
         Schema.Type_ := Some SchemaTypeObject;
         Schema.AdditionalProperties :=
           Some (default Schema.zero (genSchemaForResponse X).2);
         Schema.Items := None; Schema.Properties := None;
         Schema.MinItems := None; Schema.MaxItems := None;
         Schema.Default := None; Schema.Format := None |})
  ∧ (∀ m : gmap string any,
       (∀ X, m ≠ {["<string>" := X]}) →
       ∃ ps : gmap string Schema.t,
         (genSchemaForResponse (any_map m)).2
         = Some {|
             Schema.Type_ := Some SchemaTypeObject;
             Schema.Properties := Some ps;
             Schema.Items := None; Schema.AdditionalProperties := None;
             Schema.MinItems := None; Schema.MaxItems := None;
             Schema.Default := None; Schema.Format := None |}
         ∧ dom ps = dom m
         ∧ ∀ k v, m !! k = Some v →
             ps !! k = Some (default Schema.zero (genSchemaForResponse v).2)).
Proof.
  split; [exact genSchemaForResponse_wildcard|].
  intros m Hm. eexists. split; [by apply genSchemaForResponse_fields|]. split.
  - apply dom_fmap_L.
  - intros k v Hk. by rewrite lookup_fmap, Hk.
Qed.

Lemma genSchemaForResponse_mapping_witness :
  ∃ ps : gmap string Schema.t,
    (genSchemaForResponse
       (any_map (<["Size" := any_string "<int>"]> {["Extra" := any_string "<whatever>"]}))).2
    = Some (Schema.mk (Some SchemaTypeObject) None (Some ps) None None None None None)
    ∧ ps !! "Size" = Some (Schema.of_type SchemaTypeInteger)
    ∧ ps !! "Extra" = Some Schema.zero.
Proof.
  destruct (proj2 genSchemaForResponse_mapping
              (<["Size" := any_string "<int>"]> {["Extra" := any_string "<whatever>"]}))
    as (ps & Hgen & _ & Hps).
  - intros X H.
    assert (Hl : (<["Size" := any_string "<int>"]> {["Extra" := any_string "<whatever>"]}
                  : gmap string any) !! "Size" = Some (any_string "<int>")) by reflexivity.
    rewrite H in Hl. discriminate Hl.
  - exists ps. split; [exact Hgen|]. split.
    + apply (Hps "Size" (any_string "<int>")). reflexivity.
    + apply (Hps "Extra" (any_string "<whatever>")). reflexivity.
Defined.

(** C4 as stated fails: the value of the only entry cannot be classified,
    so that nothing is inferred from it, and the result has an
    additional-properties schema all the same, the unconstrained one. *)
Lemma genSchemaForResponse_wildcard_unclassified :
  (genSchemaForResponse (any_string "<whatever>")).2 = None
  ∧ ∃ s, (genSchemaForResponse (any_map {["<string>" := any_string "<whatever>"]})).2 = Some s
      ∧ Schema.AdditionalProperties s = Some Schema.zero
      ∧ Schema.AdditionalProperties s ≠ (genSchemaForResponse (any_string "<whatever>")).2.
Proof.
  split; [reflexivity|]. eexists. split; [vm_compute; reflexivity|].
  split; [reflexivity|]. discriminate.
Qed.

Lemma any_depth_lookup (m : gmap string any) k v :
  m !! k = Some v → (any_depth v < any_depth (any_map m))%nat.
Proof.
  intros Hk. cbn [any_depth]. apply Nat.lt_succ_r, max_list_elem_of_le.
  apply (list_elem_of_fmap_2' snd _ (k, any_depth v)); [|reflexivity].
  apply elem_of_map_to_list. by rewrite lookup_fmap, Hk.
Qed.

Lemma singleShape_of_type t : singleShape (Schema.of_type t) = true.
Proof. reflexivity. Qed.

Lemma singleShape_default (r : option Schema.t) :
  match r with Some s => singleShape s = true | None => True end →
  singleShape (default Schema.zero r) = true.
Proof. destruct r; [done|reflexivity]. Qed.

Lemma genSchemaForResponse_singleShape_depth (n : nat) : ∀ x : any,
  (any_depth x < n)%nat →
  match (genSchemaForResponse x).2 with
  | Some s => singleShape s = true
  | None => True
  end.
Proof.
  induction n as [|n IH]; intros x Hdepth; [lia|].
  destruct x as [| | | |v|v|m| |]; try exact I.
  - (* a placeholder string *)
    cbn [genSchemaForResponse].
    repeat (match goal with |- context [if ?c then _ else _] => destruct c end;
            [exact (singleShape_of_type _)|]).
    exact I.
  - (* a sequence *)
    rewrite genSchemaForResponse_slice.
    destruct v as [|v0 [|v1 v]]; try reflexivity.
    assert (H0 : singleShape (default Schema.zero (genSchemaForResponse v0).2) = true).
    { apply singleShape_default, IH. simpl in Hdepth. lia. }
    cbn [singleShape Schema.set_Items Schema.of_type]. rewrite H0. reflexivity.
  - (* a mapping *)
    destruct (bool_decide (size m = 1%nat) && String.eqb (firstKey m) "<string>") eqn:Hwild.
    + apply andb_true_iff in Hwild as [Hsize Hkey].
      apply bool_decide_eq_true_1, map_size_1_singleton in Hsize as (k & X & ->).
      rewrite firstKey_singleton in Hkey. apply String.eqb_eq in Hkey as ->.
      rewrite genSchemaForResponse_wildcard.
      assert (H0 : singleShape (default Schema.zero (genSchemaForResponse X).2) = true).
      { apply singleShape_default, IH.
        pose proof (any_depth_lookup {["<string>" := X]} "<string>" X
                      (lookup_singleton_eq _ _)). lia. }
      cbn [singleShape]. rewrite H0. reflexivity.
    + rewrite genSchemaForResponse_fields.
      * cbn [singleShape]. rewrite !andb_true_r. apply andb_true_iff. split; [reflexivity|].
        apply bool_decide_eq_true_2. apply map_Forall_fmap, map_Forall_fmap.
        intros k v Hk. cbn [compose]. apply singleShape_default, IH.
        pose proof (any_depth_lookup m k v Hk). lia.
      * intros X ->. rewrite map_size_singleton, firstKey_singleton in Hwild.
        discriminate Hwild.
Qed.

(** C9. In a schema that the inferencer returns, every node, at any depth,
    has at most one of [Items], [Properties] and [AdditionalProperties]
    set. *)
Theorem genSchemaForResponse_singleShape (x : any) :
  match (genSchemaForResponse x).2 with
  | Some s => singleShape s = true
  | None => True
  end.
Proof. apply (genSchemaForResponse_singleShape_depth (S (any_depth x))). lia. Qed.

(** * Further properties *)

(** ** More on the single-argument mapper *)

Lemma genParameterForArgument_cases arg aliasToArg :
  (String.eqb (Argument.Type_ arg) "file" = true
   ∧ genParameterForArgument arg aliasToArg = ([], None))
  ∨ (notFile arg
     ∧ genParameterForArgument arg aliasToArg
       = (warningsOf arg, Some (parameterOf arg aliasToArg))).
Proof.
  destruct (String.eqb (Argument.Type_ arg) "file") eqn:E.
  - left. split; [done|]. by apply genParameterForArgument_file.
  - right. split; [done|]. by apply genParameterForArgument_not_file.
Qed.

(** The mapper returns nil exactly for a file argument. A parameter that
    it returns is a query parameter without [Explode]; it bears the name
    "arg" when the alias is asked for and the argument's name otherwise;
    its [Required] and [Deprecated] are nil or point to true, never to
    false, and [Required] is set exactly when the argument is required. *)
Theorem genParameterForArgument_nil_iff_file (arg : Argument.t) (aliasToArg : bool) :
  match (genParameterForArgument arg aliasToArg).2 with
  | None => Argument.Type_ arg = "file"
  | Some p =>
      Argument.Type_ arg ≠ "file"
      ∧ Param.Name p = (if aliasToArg then "arg" else Argument.Name arg)
      ∧ Param.In p = ParameterInQuery
      ∧ Param.Explode p = None
      ∧ Param.Required p = (if Argument.Required arg then Some true else None)
      ∧ Param.Deprecated p ≠ Some false
  end.
Proof.
  destruct (genParameterForArgument_cases arg aliasToArg) as [[E ->]|[E ->]]; cbn [snd].
  - by apply String.eqb_eq.
  - apply String.eqb_neq in E. repeat split; try done.
    cbn [parameterOf Param.Deprecated]. by destruct (_ || _).
Qed.

(** The two markers in the description of an argument that is not a
    file: the parameter is deprecated exactly when the description
    contains "(DEPRECATED)" or starts with "Removed, ", and it has the
    extension "x-experimental", with the value true and as its only
    extension, exactly when the description contains "(experimental)". *)
Theorem genParameterForArgument_markers (arg : Argument.t) (aliasToArg : bool) :
  notFile arg →
  ∃ p, (genParameterForArgument arg aliasToArg).2 = Some p
    ∧ (Param.Deprecated p = Some true
       ↔ strings.Contains (Argument.Description arg) "(DEPRECATED)" = true
         ∨ strings.HasPrefix (Argument.Description arg) "Removed, " = true)
    ∧ (Param.MapOfAnything p !! "x-experimental" = Some (any_bool true)
       ↔ strings.Contains (Argument.Description arg) "(experimental)" = true)
    ∧ dom (Param.MapOfAnything p) ⊆ {["x-experimental"]}.
Proof.
  intros E. rewrite genParameterForArgument_not_file by exact E.
  eexists. split; [reflexivity|]. cbn [parameterOf Param.Deprecated Param.MapOfAnything].
  split; [|split].
  - rewrite <- orb_true_iff. by destruct (_ || _).
  - destruct (strings.Contains _ "(experimental)").
    + by rewrite lookup_singleton_eq.
    + by rewrite lookup_empty.
  - destruct (strings.Contains _ "(experimental)"); set_solver.
Qed.

Lemma genParameterForArgument_markers_witness :
  ∃ p, (genParameterForArgument
          (Argument.mk "pin" "Removed, use the pin command (experimental)." "bool" false "")
          true).2 = Some p
    ∧ Param.Deprecated p = Some true
    ∧ Param.MapOfAnything p !! "x-experimental" = Some (any_bool true).
Proof.
  destruct (genParameterForArgument_markers
              (Argument.mk "pin" "Removed, use the pin command (experimental)." "bool" false "")
              true) as (p & Hp & Hdep & Hexp & _).
  - reflexivity.
  - exists p. split; [exact Hp|]. split.
    + apply Hdep. right. reflexivity.
    + apply Hexp. reflexivity.
Defined.

(** What the mapper prints does not depend on the alias. It prints
    nothing exactly when the argument is a file, or when its type is one
    of the table and its default value is absent or parses without an
    error. *)
Theorem genParameterForArgument_quiet (arg : Argument.t) (aliasToArg : bool) :
  (genParameterForArgument arg aliasToArg).1 = (genParameterForArgument arg false).1
  ∧ ((genParameterForArgument arg aliasToArg).1 = []
     ↔ Argument.Type_ arg = "file"
       ∨ (supportedType (Argument.Type_ arg) = true
          ∧ (Argument.Default arg = ""
             ∨ (parseDefault (declaredType (Argument.Type_ arg))
                             (Argument.Default arg)).2 = None))).
Proof.
  split.
  - destruct (genParameterForArgument_cases arg aliasToArg) as [[E ->]|[E ->]].
    + by rewrite genParameterForArgument_file.
    + by rewrite genParameterForArgument_not_file.
  - destruct (genParameterForArgument_cases arg aliasToArg) as [[E ->]|[E ->]]; cbn [fst].
    + apply String.eqb_eq in E. tauto.
    + apply String.eqb_neq in E. unfold warningsOf.
      destruct (supportedType _); cbn [app].
      * destruct (String.eqb_spec (Argument.Default arg) "") as [Hd|Hd]; cbn [negb andb].
        { tauto. }
        destruct (parseDefault _ _).2 as [e|].
        -- rewrite bool_decide_eq_true_2 by done. split; [done|].
           intros [?|[_ [?|?]]]; done.
        -- rewrite bool_decide_eq_false_2 by (intros H; by apply H). tauto.
      * split; [done|]. intros [?|[? _]]; done.
Qed.

Lemma drop_append (s suffix : string) :
  strings.drop (String.length s) (s +:+ suffix) = suffix.
Proof. induction s as [|c s IH]; [done|]. exact IH. Qed.

Lemma substring_append (s suffix : string) :
  String.substring 0 (String.length s) (s +:+ suffix) = s.
Proof.
  induction s as [|c s IH].
  - by destruct suffix.
  - change (String c (String.substring 0 (String.length s) (s +:+ suffix)) = String c s).
    by f_equal.
Qed.

Lemma length_append (s suffix : string) :
  String.length (s +:+ suffix) = (String.length s + String.length suffix)%nat.
Proof.
  induction s as [|c s IH]; [done|].
  change (S (String.length (s +:+ suffix)) = S (String.length s + String.length suffix)).
  by f_equal.
Qed.

Lemma TrimSuffix_append (s suffix : string) :
  strings.TrimSuffix (s +:+ suffix) suffix = s.
Proof.
  unfold strings.TrimSuffix, strings.HasSuffix.
  rewrite length_append.
  replace (String.length s + String.length suffix - String.length suffix)%nat
    with (String.length s) by lia.
  rewrite drop_append, String.eqb_refl, andb_true_r.
  destruct (Nat.leb_spec (String.length suffix) (String.length s + String.length suffix));
    [|lia].
  apply substring_append.
Qed.

(** The description and the default value of an argument that is not a
    file. A description that ends with the generated sentence
    [" Default: <value>."] loses exactly that sentence; a description that
    does not end with it is kept as it is. The schema has a default value
    exactly when the argument has a nonempty one. *)
Theorem genParameterForArgument_description (arg : Argument.t) (aliasToArg : bool) :
  notFile arg →
  let suffix := " Default: " +:+ Argument.Default arg +:+ "." in
  ∃ p s, (genParameterForArgument arg aliasToArg).2 = Some p
    ∧ Param.Schema p = Some s
    ∧ (∀ base, Argument.Description arg = base +:+ suffix → Param.Description p = Some base)
    ∧ (strings.HasSuffix (Argument.Description arg) suffix = false →
       Param.Description p = Some (Argument.Description arg))
    ∧ (Schema.Default s = None ↔ Argument.Default arg = "").
Proof.
  intros E suffix. rewrite genParameterForArgument_not_file by exact E.
  eexists _, _. split; [reflexivity|]. split; [reflexivity|].
  cbn [parameterOf Param.Description Schema.Default]. fold suffix. split; [|split].
  - intros base ->. by rewrite TrimSuffix_append.
  - intros Hno. unfold strings.TrimSuffix. by rewrite Hno.
  - unfold storedDefault.
    destruct (String.eqb_spec (Argument.Default arg) "") as [Hd|Hd]; [done|].
    by destruct (parseDefault _ _).2.
Qed.

Lemma genParameterForArgument_description_witness :
  ∃ p s, (genParameterForArgument
            (Argument.mk "recursive" "Walk the tree. Default: true." "bool" false "true")
            false).2 = Some p
    ∧ Param.Schema p = Some s
    ∧ Param.Description p = Some "Walk the tree."
    ∧ Schema.Default s ≠ None.
Proof.
  destruct (genParameterForArgument_description
              (Argument.mk "recursive" "Walk the tree. Default: true." "bool" false "true")
              false) as (p & s & Hp & Hs & Hbase & _ & Hdef).
  - reflexivity.
  - exists p, s. split; [exact Hp|]. split; [exact Hs|]. split.
    + apply Hbase. reflexivity.
    + intros Hnone. apply Hdef in Hnone. discriminate Hnone.
Defined.

(** ** More on the multi-argument mapper *)

Lemma notFile_not_isFile arg : notFile arg ↔ ¬ isFile arg.
Proof. unfold notFile, isFile. by rewrite String.eqb_neq. Qed.

Lemma genParameterForMultiArgument_loop_file args : ∀ i vars,
  Exists isFile args → (genParameterForMultiArgument_loop i args vars).2 = None.
Proof.
  induction args as [|arg args IH]; intros i vars Hex.
  - by apply Exists_nil in Hex.
  - cbn [genParameterForMultiArgument_loop]. W_simpl.
    destruct (genParameterForArgument_cases arg false) as [[E ->]|[E ->]]; cbn [snd].
    + reflexivity.
    + cbn [parameterOf Param.Description Param.Schema]. apply IH.
      apply Exists_cons in Hex as [Hfile|Hex]; [|done].
      by apply notFile_not_isFile in E.
Qed.

(** The multi-argument mapper fails (it dereferences the nil that the
    single-argument mapper returns) exactly when one of the arguments is a
    file. *)
Theorem genParameterForMultiArgument_panics_iff_file (args : list Argument.t) :
  (genParameterForMultiArgument args).2 = None
  ↔ Exists (λ arg, Argument.Type_ arg = "file") args.
Proof.
  split.
  - intros Hnone. destruct (decide (Exists isFile args)) as [Hex|Hno]; [exact Hex|].
    apply not_Exists_Forall in Hno; [|intros arg; apply _].
    assert (Hall : Forall notFile args).
    { eapply Forall_impl; [exact Hno|]. intros arg. apply notFile_not_isFile. }
    destruct (genParameterForMultiArgument_not_file args Hall) as (p & s & Hp & _).
    rewrite Hp in Hnone. discriminate Hnone.
  - intros Hex. unfold genParameterForMultiArgument. W_simpl.
    by rewrite (genParameterForMultiArgument_loop_file args 0 _ Hex).
Qed.

(** The loop on arguments none of which is a file: what it prints and the
    lines of the description that it collects. *)
Lemma genParameterForMultiArgument_loop_lines args : ∀ i vars,
  Forall notFile args →
  ∃ vars',
    genParameterForMultiArgument_loop i args vars
    = (concat ((λ arg, (genParameterForArgument arg false).1) <$> args), Some vars')
    ∧ descriptions vars'
      = (descriptions vars ++ imap (λ j arg, mergedLine (i + j) arg) args)%list.
Proof.
  induction args as [|arg args IH]; intros i vars Hall.
  - exists vars. cbn. by rewrite app_nil_r.
  - apply Forall_cons in Hall as [Harg Hall].
    cbn [genParameterForMultiArgument_loop fmap list_fmap concat imap].
    rewrite (W_eta (_ ≫= _)). W_simpl.
    rewrite genParameterForArgument_not_file by exact Harg. cbn [fst snd].
    cbn [parameterOf Param.Description Param.Schema].
    match goal with |- context [genParameterForMultiArgument_loop (S i) args ?v] =>
      destruct (IH (S i) v Hall) as (vars' & Hrun & Hdesc)
    end.
    exists vars'. rewrite Hrun. cbn [fst snd]. split; [reflexivity|].
    rewrite Hdesc. cbn [descriptions]. rewrite <- app_assoc. cbn [app].
    rewrite Nat.add_0_r. do 2 f_equal.
    apply imap_ext. intros j arg' _. cbn. f_equal. lia.
Qed.

(** The merged parameter of arguments none of which is a file is named
    "arg" and has [Explode] set. Its description has one line for each
    argument, in order, numbered from 0: "arg<i> (<name>): " and then the
    description that the single-argument mapper gives the argument, without
    the white space around it. What the mapper prints is what the
    single-argument mapper prints for the arguments, in order. *)
Theorem genParameterForMultiArgument_description (args : list Argument.t) :
  Forall notFile args →
  ∃ p, genParameterForMultiArgument args
       = (concat ((λ arg, (genParameterForArgument arg false).1) <$> args), Some p)
    ∧ Param.Name p = "arg"
    ∧ Param.Explode p = Some true
    ∧ Param.Description p
      = Some (strings.Join (imap mergedLine args) LF).
Proof.
  intros Hall. unfold genParameterForMultiArgument.
  destruct (genParameterForMultiArgument_loop_lines args 0
              (mkMultiVars [] [] false [] false false) Hall) as (vars' & Hrun & Hdesc).
  rewrite Hrun. cbn [descriptions app] in Hdesc.
  eexists. split.
  - apply W_ext; W_simpl; [by rewrite app_nil_r|reflexivity].
  - cbn [Param.Name Param.Explode Param.Description]. by rewrite Hdesc.
Qed.

Lemma genParameterForMultiArgument_description_witness :
  ∃ p, genParameterForMultiArgument
         [Argument.mk "key" "  The key. " "string" true "";
          Argument.mk "depth" "How deep. Default: x." "int" false "x"]
       = ([fmt_Println "WARN: Couldn't parse default value for depth"], Some p)
    ∧ Param.Name p = "arg"
    ∧ Param.Explode p = Some true
    ∧ Param.Description p
      = Some ("arg0 (key): The key." +:+ LF +:+ "arg1 (depth): How deep.").
Proof.
  apply (genParameterForMultiArgument_description
           [Argument.mk "key" "  The key. " "string" true "";
            Argument.mk "depth" "How deep. Default: x." "int" false "x"]).
  repeat constructor.
Defined.

(** The default list of the merged parameter fits its own bounds: when
    there is one, it is a list with as many slots as [MinItems] and
    [MaxItems] say. *)
Theorem genParameterForMultiArgument_default_fits (args : list Argument.t) :
  Forall notFile args →
  ∃ p s, (genParameterForMultiArgument args).2 = Some p
    ∧ Param.Schema p = Some s
    ∧ match Schema.Default s with
      | None => True
      | Some d =>
          ∃ slots, d = any_slice slots
            ∧ Schema.MinItems s = Some (Z.of_nat (List.length slots))
            ∧ Schema.MaxItems s = Some (Z.of_nat (List.length slots))
      end.
Proof.
  intros Hall.
  destruct (genParameterForMultiArgument_not_file args Hall)
    as (p & s & Hp & _ & _ & Hs & _ & _ & Hmin & Hmax & Hdef & _).
  exists p, s. split; [exact Hp|]. split; [exact Hs|]. rewrite Hdef.
  destruct (existsb hasDefault args); [|exact I].
  eexists. split; [reflexivity|]. by rewrite length_fmap.
Qed.

Lemma genParameterForMultiArgument_default_fits_witness :
  ∃ p s, (genParameterForMultiArgument
            [Argument.mk "a" "" "int" false "1"; Argument.mk "b" "" "string" false ""]).2
         = Some p
    ∧ Param.Schema p = Some s
    ∧ Schema.Default s = Some (any_slice [any_ptr (Some (any_int64 1)); any_ptr None])
    ∧ Schema.MinItems s = Some 2.
Proof.
  destruct (genParameterForMultiArgument_default_fits
              [Argument.mk "a" "" "int" false "1"; Argument.mk "b" "" "string" false ""])
    as (p & s & Hp & Hs & Hfit).
  - repeat constructor.
  - exists p, s. split; [exact Hp|]. split; [exact Hs|].
    cbn in Hp. injection Hp as <-. cbn in Hs. injection Hs as <-. split; reflexivity.
Defined.

(** ** More on the response schema inferencer *)

Lemma genSchemaForResponse_string v :
  if bool_decide (v ∈ knownTags)
  then ∃ t, genSchemaForResponse (any_string v) = ([], Some (Schema.of_type t))
  else genSchemaForResponse (any_string v) = ([unknownTag_warning v], None).
Proof.
  cbn [genSchemaForResponse existsb].
  repeat match goal with
  | |- context [String.eqb v ?tag] =>
      destruct (String.eqb_spec v tag) as [->|?];
        [match goal with
         | |- context [bool_decide ?P] =>
             replace (bool_decide P) with true by (symmetry; vm_compute; reflexivity)
         end; cbn; eauto|]
  end.
  cbn [orb]. rewrite bool_decide_eq_false_2; [reflexivity|].
  unfold knownTags. intros Hin.
  repeat (apply elem_of_cons in Hin as [->|Hin]; [congruence|]).
  by apply elem_of_nil in Hin.
Qed.

Lemma genSchemaForResponse_slice_events (v : list any) :
  (genSchemaForResponse (any_slice v)).1
  = match v with
    | [v0] =>
        ((genSchemaForResponse v0).1
         ++ match (genSchemaForResponse v0).2 with Some _ => [] | None => [array_warning] end)%list
    | _ => [array_warning]
    end.
Proof.
  cbn [genSchemaForResponse]. W_simpl.
  destruct v as [|v0 [|v1 v]]; cbn [mret W_ret fst snd app]; try reflexivity.
  destruct (genSchemaForResponse v0).2; W_simpl; by rewrite ?app_nil_r.
Qed.

Lemma genSchemaForResponse_wildcard_events X :
  (genSchemaForResponse (any_map {["<string>" := X]})).1
  = ((genSchemaForResponse X).1
     ++ match (genSchemaForResponse X).2 with Some _ => [] | None => [object_warning] end)%list.
Proof.
  cbn [genSchemaForResponse]. rewrite map_size_singleton, firstKey_singleton.
  rewrite bool_decide_eq_true_2 by done. cbn [String.eqb Ascii.eqb Bool.eqb andb].
  W_simpl. rewrite map_fmap_singleton, lookup_singleton_eq. cbn [default from_option id].
  destruct (genSchemaForResponse X).2; W_simpl; by rewrite ?app_nil_r.
Qed.

Lemma genSchemaForResponse_fields_events (m : gmap string any) :
  (∀ X, m ≠ {["<string>" := X]}) →
  (genSchemaForResponse (any_map m)).1
  = concat ((λ kv : string * any, (genSchemaForResponse kv.2).1) <$> map_to_list m).
Proof.
  intros Hm. cbn [genSchemaForResponse].
  assert (bool_decide (size m = 1%nat) && String.eqb (firstKey m) "<string>" = false) as ->.
  { apply andb_false_iff. destruct (decide (size m = 1%nat)) as [Hsize|Hsize].
    - right. apply map_size_1_singleton in Hsize as (k & v & ->).
      rewrite firstKey_singleton. apply String.eqb_neq. intros ->. by apply (Hm v).
    - left. by apply bool_decide_eq_false_2. }
  W_simpl. unfold range_map. cbn [fst]. rewrite app_nil_r, map_to_list_fmap.
  rewrite <- list_fmap_compose. reflexivity.
Qed.

(** A mapping is either the wildcard one or such that the two lemmas on
    fixed fields apply. *)
Lemma mapping_cases (m : gmap string any) :
  (∃ X, m = {["<string>" := X]}) ∨ (∀ X, m ≠ {["<string>" := X]}).
Proof.
  destruct (decide (size m = 1%nat)) as [Hsize|Hsize].
  - apply map_size_1_singleton in Hsize as (k & v & ->).
    destruct (decide (k = "<string>")) as [->|Hk]; [left; by exists v|].
    right. intros X HX. apply Hk.
    assert (Hl : ({[k := v]} : gmap string any) !! k = Some v) by apply lookup_singleton_eq.
    rewrite HX in Hl. apply lookup_singleton_Some in Hl. by destruct Hl.
  - right. intros X ->. by rewrite map_size_singleton in Hsize.
Qed.

(** When the inferencer has an opinion and when not. A placeholder string
    gets a schema with nothing printed when it is one of the known ones;
    any other string gets none, with one warning. A sequence always gets an
    array schema with an item schema, a mapping always an object schema
    with either properties or an additional-properties schema. Any other
    value (nil, a boolean, a number) gets none, with one warning that
    carries the value. *)
Theorem genSchemaForResponse_opinion (x : any) :
  match x with
  | any_string v =>
      if bool_decide (v ∈ knownTags)
      then ∃ t, genSchemaForResponse x = ([], Some (Schema.of_type t))
      else genSchemaForResponse x = ([unknownTag_warning v], None)
  | any_slice _ =>
      ∃ s items, (genSchemaForResponse x).2 = Some s
        ∧ Schema.Type_ s = Some SchemaTypeArray ∧ Schema.Items s = Some items
  | any_map _ =>
      ∃ s, (genSchemaForResponse x).2 = Some s
        ∧ Schema.Type_ s = Some SchemaTypeObject
        ∧ (is_Some (Schema.Properties s) ∨ is_Some (Schema.AdditionalProperties s))
  | _ => genSchemaForResponse x = ([unknownValue_warning x], None)
  end.
Proof.
  destruct x as [| | | |v|v|m| |]; try reflexivity.
  - apply genSchemaForResponse_string.
  - rewrite genSchemaForResponse_slice. by eexists _, _.
  - destruct (mapping_cases m) as [[X ->]|Hm].
    + rewrite genSchemaForResponse_wildcard. eexists. split; [reflexivity|].
      split; [reflexivity|]. right. by eexists.
    + rewrite genSchemaForResponse_fields by exact Hm. eexists. split; [reflexivity|].
      split; [reflexivity|]. left. by eexists.
Qed.

Lemma allNodes_default check (r : option Schema.t) :
  check Schema.zero = true →
  match r with Some s => allNodes check s = true | None => True end →
  allNodes check (default Schema.zero r) = true.
Proof.
  intros Hzero. destruct r; [done|]. intros _.
  change (check Schema.zero && true && true && true = true). by rewrite Hzero.
Qed.

Lemma genSchemaForResponse_noConstraints_depth (n : nat) : ∀ x : any,
  (any_depth x < n)%nat →
  match (genSchemaForResponse x).2 with
  | Some s => allNodes noConstraints s = true
  | None => True
  end.
Proof.
  induction n as [|n IH]; intros x Hdepth; [lia|].
  destruct x as [| | | |v|v|m| |]; try exact I.
  - pose proof (genSchemaForResponse_string v) as Hv.
    destruct (bool_decide _); [destruct Hv as [t ->]|rewrite Hv]; done.
  - rewrite genSchemaForResponse_slice.
    destruct v as [|v0 [|v1 v]]; try reflexivity.
    assert (H0 : allNodes noConstraints (default Schema.zero (genSchemaForResponse v0).2) = true).
    { apply allNodes_default; [done|]. apply IH. simpl in Hdepth. lia. }
    cbn [allNodes Schema.set_Items Schema.of_type]. rewrite H0. reflexivity.
  - destruct (mapping_cases m) as [[X ->]|Hm].
    + rewrite genSchemaForResponse_wildcard.
      assert (H0 : allNodes noConstraints (default Schema.zero (genSchemaForResponse X).2) = true).
      { apply allNodes_default; [done|]. apply IH.
        pose proof (any_depth_lookup {["<string>" := X]} "<string>" X
                      (lookup_singleton_eq _ _)). lia. }
      cbn [allNodes]. rewrite H0. reflexivity.
    + rewrite genSchemaForResponse_fields by exact Hm.
      cbn [allNodes]. rewrite !andb_true_r. apply andb_true_iff. split; [reflexivity|].
      apply bool_decide_eq_true_2. apply map_Forall_fmap, map_Forall_fmap.
      intros k v Hk. cbn [compose]. apply allNodes_default; [done|]. apply IH.
      pose proof (any_depth_lookup m k v Hk). lia.
Qed.

(** The inferencer only gives types and shapes: no node of a schema that
    it returns, at any depth, has [MinItems], [MaxItems], a default value
    or a format. *)
Theorem genSchemaForResponse_noConstraints (x : any) :
  match (genSchemaForResponse x).2 with
  | Some s => allNodes noConstraints s = true
  | None => True
  end.
Proof. apply (genSchemaForResponse_noConstraints_depth (S (any_depth x))). lia. Qed.

Lemma concat_nil_inv {A} (ls : list (list A)) :
  concat ls = [] → ∀ l, l ∈ ls → l = [].
Proof.
  induction ls as [|l0 ls IH]; intros Hnil l Hin; [by apply elem_of_nil in Hin|].
  cbn in Hnil. apply app_eq_nil in Hnil as [-> Hnil].
  apply elem_of_cons in Hin as [->|Hin]; [done|]. by apply IH.
Qed.

Lemma genSchemaForResponse_quiet_depth (n : nat) : ∀ x : any,
  (any_depth x < n)%nat →
  (genSchemaForResponse x).1 = [] →
  ∃ s, (genSchemaForResponse x).2 = Some s ∧ allNodes hasType s = true.
Proof.
  induction n as [|n IH]; intros x Hdepth; [lia|].
  destruct x as [| | | |v|v|m| |]; try discriminate.
  - pose proof (genSchemaForResponse_string v) as Hv.
    destruct (bool_decide _); [destruct Hv as [t ->]|rewrite Hv]; [|discriminate].
    intros _. by eexists.
  - rewrite genSchemaForResponse_slice_events, genSchemaForResponse_slice.
    destruct v as [|v0 [|v1 v]]; try discriminate.
    intros [Hq Hw]%app_eq_nil.
    destruct (IH v0) as (s0 & Hs0 & Htyped); [simpl in Hdepth; lia|exact Hq|].
    rewrite Hs0. eexists. split; [reflexivity|].
    cbn [allNodes Schema.set_Items Schema.of_type default from_option id].
    by rewrite Htyped.
  - destruct (mapping_cases m) as [[X ->]|Hm].
    + rewrite genSchemaForResponse_wildcard_events, genSchemaForResponse_wildcard.
      intros [Hq Hw]%app_eq_nil.
      destruct (IH X) as (s0 & Hs0 & Htyped); [|exact Hq|].
      { pose proof (any_depth_lookup {["<string>" := X]} "<string>" X
                      (lookup_singleton_eq _ _)). lia. }
      rewrite Hs0. eexists. split; [reflexivity|].
      cbn [allNodes default from_option id]. by rewrite Htyped.
    + rewrite genSchemaForResponse_fields_events, genSchemaForResponse_fields by exact Hm.
      intros Hq. eexists. split; [reflexivity|].
      cbn [allNodes]. rewrite !andb_true_r. apply andb_true_iff. split; [reflexivity|].
      apply bool_decide_eq_true_2. apply map_Forall_fmap, map_Forall_fmap.
      intros k v Hk. cbn [compose].
      destruct (IH v) as (s0 & Hs0 & Htyped).
      * pose proof (any_depth_lookup m k v Hk). lia.
      * apply (concat_nil_inv _ Hq).
        apply (list_elem_of_fmap_2' _ _ (k, v)); [|reflexivity].
        by apply elem_of_map_to_list.
      * by rewrite Hs0.
Qed.

(** When the inferencer prints nothing, it returns a schema, and every
    node of that schema, at any depth, has a type: an unconstrained schema
    is never put in without a warning. *)
Theorem genSchemaForResponse_quiet_typed (x : any) :
  (genSchemaForResponse x).1 = [] →
  ∃ s, (genSchemaForResponse x).2 = Some s ∧ allNodes hasType s = true.
Proof. apply (genSchemaForResponse_quiet_depth (S (any_depth x))). lia. Qed.

Lemma genSchemaForResponse_quiet_typed_witness :
  ∃ s, (genSchemaForResponse
          (any_map (<["Peers" := any_slice [any_map {["ID" := any_string "<peer-id>"]}]]>
                      {["Count" := any_string "<int>"]}))).2 = Some s
    ∧ allNodes hasType s = true.
Proof.
  apply (genSchemaForResponse_quiet_typed
           (any_map (<["Peers" := any_slice [any_map {["ID" := any_string "<peer-id>"]}]]>
                       {["Count" := any_string "<int>"]}))).
  vm_compute. reflexivity.
Defined.

(** * The endpoint assembler *)

Lemma noFile_Forall (args : list Argument.t) : noFile args = true ↔ Forall notFile args.
Proof.
  unfold noFile, notFile. rewrite forallb_forall, List.Forall_forall.
  split; intros H arg Hin; specialize (H arg Hin); by destruct (String.eqb _ _).
Qed.

Lemma noFile_Exists (args : list Argument.t) : noFile args = false ↔ Exists isFile args.
Proof.
  induction args as [|arg args IH]; cbn [noFile forallb].
  - split; [done|]. by intros ?%Exists_nil.
  - rewrite Exists_cons. unfold isFile at 1.
    destruct (String.eqb_spec (Argument.Type_ arg) "file") as [E|E]; cbn [negb andb].
    + tauto.
    + fold (noFile args). rewrite IH. tauto.
Qed.

Lemma untilFile_noFile (args : list Argument.t) : noFile args = true → untilFile args = args.
Proof.
  induction args as [|arg args IH]; [done|]. cbn [noFile forallb untilFile].
  destruct (String.eqb _ _); cbn [negb andb]; [done|]. intros H. by rewrite IH.
Qed.

(** The loop that appends the parameters of the arguments: it prints what
    the single-argument mapper prints for the arguments before the first
    file, and it ends in a panic exactly when there is a file. *)
Lemma range_parameters_run (aliasToArg : bool) (args : list Argument.t) :
  range_parameters aliasToArg args
  = (argumentEvents (untilFile args),
     if noFile args then Some ((λ arg, parameterOf arg aliasToArg) <$> args) else None).
Proof.
  unfold argumentEvents. induction args as [|arg args IH]; [done|].
  cbn [range_parameters untilFile noFile forallb].
  destruct (genParameterForArgument_cases arg aliasToArg) as [[E Hrun]|[E Hrun]];
    rewrite Hrun.
  - rewrite E. reflexivity.
  - unfold notFile in E. rewrite E. cbn [negb andb fmap list_fmap concat].
    rewrite (genParameterForArgument_not_file arg false E). cbn [fst].
    fold (noFile args).
    apply W_ext; W_simpl; cbn [or_panic]; rewrite IH; W_simpl.
    + by rewrite app_nil_r.
    + by destruct (noFile args).
Qed.

Lemma genParameterForMultiArgument_run (args : list Argument.t) :
  Forall notFile args →
  ∃ p, genParameterForMultiArgument args = (argumentEvents args, Some p).
Proof.
  intros Hall. unfold genParameterForMultiArgument.
  destruct (genParameterForMultiArgument_loop_lines args 0
              (mkMultiVars [] [] false [] false false) Hall) as (vars' & Hrun & _).
  rewrite Hrun. eexists. apply W_ext; W_simpl; [by rewrite app_nil_r|reflexivity].
Qed.

Lemma argumentEvents_otherArgs (arguments : list Argument.t) :
  argumentEvents (List.filter (λ arg, negb (String.eqb (Argument.Type_ arg) "file")) arguments)
  = argumentEvents arguments.
Proof.
  unfold argumentEvents. induction arguments as [|arg arguments IH]; [done|].
  cbn [List.filter fmap list_fmap concat].
  destruct (genParameterForArgument_cases arg false) as [[E Hrun]|[E Hrun]].
  - rewrite E, Hrun. cbn [negb fst app]. exact IH.
  - unfold notFile in E. rewrite E. cbn [negb fmap list_fmap concat]. by rewrite IH.
Qed.

Lemma otherArgs_notFile (arguments : list Argument.t) :
  Forall notFile
    (List.filter (λ arg, negb (String.eqb (Argument.Type_ arg) "file")) arguments).
Proof.
  apply List.Forall_forall. intros arg Harg. apply List.filter_In in Harg as [_ Harg].
  unfold notFile. by destruct (String.eqb _ _).
Qed.

(** The parameters that [GenerateEndpoint] makes of the arguments that are
    not files: the run never panics, it prints what the single-argument
    mapper prints for the arguments, and it gives no parameter, the
    aliased parameter of the only argument, or the merged parameter. *)
Lemma positional_parameters_run (endp : Endpoint.t) :
  ∃ positional,
    (if (1 <? List.length (otherArgsOf endp))%nat then
       p ← genParameterForMultiArgument (otherArgsOf endp);
       mret ((λ p, [p]) <$> p)
     else
       range_parameters (List.length (otherArgsOf endp) <=? 1)%nat (otherArgsOf endp))
    = (argumentEvents (Endpoint.Arguments endp), Some positional)
    ∧ Some <$> positional
      = match otherArgsOf endp with
        | [] => []
        | [arg] => [(genParameterForArgument arg true).2]
        | _ => [(genParameterForMultiArgument (otherArgsOf endp)).2]
        end.
Proof.
  rewrite <- (argumentEvents_otherArgs (Endpoint.Arguments endp)).
  pose proof (otherArgs_notFile (Endpoint.Arguments endp)) as Hall.
  fold (otherArgsOf endp) in *.
  destruct (otherArgsOf endp) as [|arg [|arg' args]] eqn:Hargs.
  - by exists [].
  - cbn [List.length Nat.ltb Nat.leb]. rewrite range_parameters_run.
    apply noFile_Forall in Hall as Hno. rewrite Hno, (untilFile_noFile _ Hno).
    eexists. split; [reflexivity|]. apply Forall_cons in Hall as [Harg _].
    cbn [fmap list_fmap]. by rewrite (genParameterForArgument_not_file arg true Harg).
  - cbn [List.length Nat.ltb Nat.leb].
    destruct (genParameterForMultiArgument_run _ Hall) as [p Hp]. rewrite Hp.
    exists [p]. split; [|reflexivity].
    apply W_ext; W_simpl; [by rewrite app_nil_r|reflexivity].
Qed.

Section AssemblerProperties.

(** The markdown formatter's [GenerateBodyBlock], [json.Unmarshal] and the
    document builder's [AddOperation]: anything of their types. *)
Variable md : list Argument.t → string.
Variable json : string → any + error.
Variable builder : Spec.t → string → string → Operation.t → Spec.t * option error.

(** The run of [GenerateEndpoint_op] up to the request body. *)
Ltac run_parameters endp positional Hpos :=
  unfold GenerateEndpoint_op; fold (otherArgsOf endp); fold (bodyArgsOf endp);
  destruct (positional_parameters_run endp) as (positional & -> & Hpos);
  rewrite W_bind_pair; cbn [or_panic]; rewrite range_parameters_run, W_bind_pair.

(** [GenerateEndpoint_op] ends in a panic exactly when an option is a
    file. *)
Lemma GenerateEndpoint_op_panics (endp : Endpoint.t) :
  (GenerateEndpoint_op md json endp).2
  = None ↔ Exists isFile (Endpoint.Options endp).
Proof.
  rewrite <- noFile_Exists. run_parameters endp positional Hpos.
  cbn [snd]. destruct (noFile (Endpoint.Options endp)); cbn [or_panic]; [|done].
  rewrite W_bind_ret. done.
Qed.

Lemma GenerateEndpoint_run (myself : OpenAPIFormatter.t) (endp : Endpoint.t) :
  GenerateEndpoint md json builder myself endp
  = ((GenerateEndpoint_op md json endp).1,
     (λ op, let r := builder (OpenAPIFormatter.spec myself) "POST" (Endpoint.Name endp) op in
            (OpenAPIFormatter.mk (OpenAPIFormatter.reflector_Spec myself) r.1, r.2))
       <$> (GenerateEndpoint_op md json endp).2).
Proof.
  unfold GenerateEndpoint. destruct (GenerateEndpoint_op md json endp) as [out [op|]];
    rewrite W_bind_pair; cbn [or_panic mret W_ret fst snd fmap option_fmap option_map];
    by rewrite app_nil_r.
Qed.

(** C8. The response of an endpoint none of whose options is a file (the
    run ends in a panic before the response otherwise) is handled in
    three ways. The text that announces a plain-text body gives the
    response "200" with a [text/plain] content that has neither schema
    nor example. An empty text gives no response at all. Any other text
    is decoded as JSON: when that fails, the failure is logged and there
    is no response; when it succeeds, the response "200" has an
    [application/json] content with the decoded value as the example and
    with the schema inferred from it, if one is inferred. In every case
    the operation is then handed to the document builder. *)
Theorem GenerateEndpoint_response (myself : OpenAPIFormatter.t) (endp : Endpoint.t) :
  Forall notFile (Endpoint.Options endp) →
  let text := Endpoint.Response endp in
  ∃ out op,
    GenerateEndpoint_op md json endp = (out, Some op)
    ∧ GenerateEndpoint md json builder myself endp
      = (out,
         Some (let r := builder (OpenAPIFormatter.spec myself) "POST" (Endpoint.Name endp) op in
               (OpenAPIFormatter.mk (OpenAPIFormatter.reflector_Spec myself) r.1, r.2)))
    ∧ if String.eqb text "This endpoint returns a `text/plain` response body." then
        Operation.Responses op
        = {["200" := {|
              Response.Description := "Successful response";
              Response.Content := {["text/plain" := MediaType.mk None None]} |}]}
      else if String.eqb text "" then
        Operation.Responses op = ∅
      else
        match json text with
        | inr err =>
            Operation.Responses op = ∅
            ∧ log_Println [any_string "Couldn't parse JSON for Response:"; any_error err;
                           any_string "; JSON:"; any_string text] ∈ out
        | inl responseJson =>
            Operation.Responses op
            = {["200" := {|
                  Response.Description := "Successful response";
                  Response.Content :=
                    {["application/json" := {|
                        MediaType.Example := Some responseJson;
                        MediaType.Schema := (genSchemaForResponse responseJson).2 |}]} |}]}
        end.
Proof.
  intros Hopts%noFile_Forall text. rewrite GenerateEndpoint_run.
  run_parameters endp positional Hpos. rewrite Hopts. cbn [or_panic].
  rewrite W_bind_ret. eexists _, _. split; [reflexivity|]. split; [reflexivity|].
  cbn [Operation.Responses]. fold text. unfold plainTextResponse.
  destruct (String.eqb text "This endpoint returns a `text/plain` response body.");
    [reflexivity|].
  destruct (String.eqb text ""); cbn [negb]; [reflexivity|].
  destruct (json text) as [responseJson|err]; W_simpl; [reflexivity|].
  split; [reflexivity|].
  rewrite !elem_of_app, !list_elem_of_singleton. naive_solver.
Qed.

(** ** The loops of [Generate] *)

Lemma Generate_endpoints_app endpoints1 : ∀ myself endpoints2,
  Generate_endpoints md json builder myself (endpoints1 ++ endpoints2)
  = r ← Generate_endpoints md json builder myself endpoints1;
    and_then r (λ myself', Generate_endpoints md json builder myself' endpoints2).
Proof.
  induction endpoints1 as [|endp endpoints1 IH]; intros myself endpoints2.
  - cbn [app Generate_endpoints]. by rewrite W_left_id.
  - cbn [app Generate_endpoints]. rewrite W_assoc.
    apply W_bind_ext. intros [[myself' [err|]]|]; cbn [and_then].
    + by rewrite W_left_id.
    + apply IH.
    + by rewrite W_left_id.
Qed.

Lemma Generate_statuses_concat statuses : ∀ myself api,
  Generate_statuses md json builder myself api statuses
  = Generate_endpoints md json builder myself (concat (InStatus api <$> statuses)).
Proof.
  induction statuses as [|status statuses IH]; intros myself api.
  - reflexivity.
  - cbn [Generate_statuses fmap list_fmap concat].
    rewrite Generate_endpoints_app.
    destruct (InStatus api status) as [|endp endpoints] eqn:E.
    + cbn [List.length Nat.eqb Generate_endpoints].
      rewrite W_left_id. apply IH.
    + cbn [List.length Nat.eqb]. apply W_bind_ext.
      intros [[myself' [err|]]|]; cbn [and_then]; [done| |done].
      apply IH.
Qed.


Lemma Generate_endpoints_order (myself : OpenAPIFormatter.t) (api : list Endpoint.t) :
  Generate md json builder myself api
  = Generate_endpoints md json builder (GenerateMetadata myself)
      (InStatus api Active ++ InStatus api Experimental
         ++ InStatus api Deprecated ++ InStatus api Removed).
Proof.
  unfold Generate. rewrite Generate_statuses_concat.
  cbn [fmap list_fmap concat]. by rewrite app_nil_r.
Qed.

(** *** What is in the document afterwards *)




End AssemblerProperties.


Lemma GenerateEndpoint_response_witness :
  let endp :=
    Endpoint.mk "/api/v0/version" "Show the version."
      [] [Argument.mk "number" "Only show the version number." "bool" false ""]
      "{" Active in
  ∃ out op,
    GenerateEndpoint_op (λ _, "") (λ _, inr "unexpected end of JSON input") endp
    = (out, Some op)
    ∧ Operation.Responses op = ∅
    ∧ log_Println [any_string "Couldn't parse JSON for Response:";
                   any_error "unexpected end of JSON input";
                   any_string "; JSON:"; any_string "{"] ∈ out.
Proof.
  intros endp.
  destruct (GenerateEndpoint_response (λ _, "") (λ _, inr "unexpected end of JSON input")
              AddOperation_model OpenAPIFormatter.zero endp)
    as (out & op & Hop & _ & Hresp & Hlog).
  - repeat constructor.
  - exists out, op. split; [exact Hop|]. split; [exact Hresp|exact Hlog].
Defined.



(** ** More on the endpoint assembler *)

Lemma prefix_append (p s : string) : String.prefix p (p +:+ s) = true.
Proof.
  induction p as [|c p IH]; [by destruct s|].
  change (String.prefix (String c p) (String c (p +:+ s)) = true).
  cbn [String.prefix]. destruct (ascii_dec c c); [exact IH|done].
Qed.

Lemma TrimPrefix_append (p s : string) : strings.TrimPrefix (p +:+ s) p = s.
Proof.
  unfold strings.TrimPrefix, strings.HasPrefix. rewrite prefix_append.
  apply drop_append.
Qed.

Lemma prefix_slash (c : ascii) (x y : string) :
  String.prefix "/" (String c x) = String.prefix "/" (String c y).
Proof. cbn. destruct (ascii_dec "/" c); by destruct x, y. Qed.

Lemma Contains_cons (c : ascii) (s : string) :
  strings.Contains (String c s) "/" = String.prefix "/" (String c s) || strings.Contains s "/".
Proof. reflexivity. Qed.

Lemma ReplaceAll_go_no_slash (fuel : nat) : ∀ s : string,
  (String.length s < fuel)%nat →
  strings.Contains (strings.ReplaceAll_go fuel s "/" "-") "/" = false.
Proof.
  induction fuel as [|fuel IH]; intros s Hlen; [lia|].
  destruct s as [|c s]; [reflexivity|]. cbn [strings.ReplaceAll_go].
  cbn [String.length] in Hlen.
  destruct (String.prefix "/" (String c s)) eqn:Hc.
  - change (strings.drop (String.length "/") (String c s)) with s.
    change ("-" +:+ ?x) with (String "-" x).
    rewrite Contains_cons, IH by lia. reflexivity.
  - rewrite Contains_cons, IH by lia.
    by rewrite (prefix_slash c _ s), Hc.
Qed.

Lemma parameterOf_fmap (aliasToArg : bool) (args : list Argument.t) :
  noFile args = true →
  Some <$> ((λ arg, parameterOf arg aliasToArg) <$> args)
  = (λ arg, (genParameterForArgument arg aliasToArg).2) <$> args.
Proof.
  intros Hall%noFile_Forall. induction Hall as [|arg args Harg _ IH]; [done|].
  cbn [fmap list_fmap] in *. rewrite IH.
  by rewrite (genParameterForArgument_not_file arg aliasToArg Harg).
Qed.

Section MoreAssemblerProperties.

Variable md : list Argument.t → string.
Variable json : string → any + error.

(** The run of [GenerateEndpoint_op] when no option is a file: the
    operation, with the parameters in closed form. *)
Ltac run_operation endp positional Hpos Hopts :=
  unfold GenerateEndpoint_op; fold (otherArgsOf endp); fold (bodyArgsOf endp);
  destruct (positional_parameters_run endp) as (positional & -> & Hpos);
  rewrite W_bind_pair; cbn [or_panic]; rewrite range_parameters_run, W_bind_pair;
  rewrite Hopts; cbn [or_panic]; rewrite W_bind_ret.

(** The identifiers of the operation of an endpoint none of whose
    options is a file: the identifier of the operation is the name of the
    endpoint without the prefix "/api/v0/" (the whole name when it does
    not start with it), and the anchor of its external documentation
    contains no slash. *)
Theorem GenerateEndpoint_op_identifiers (endp : Endpoint.t) :
  Forall notFile (Endpoint.Options endp) →
  ∃ op,
    (GenerateEndpoint_op md json endp).2 = Some op
    ∧ (∀ rest, Endpoint.Name endp = "/api/v0/" +:+ rest → Operation.ID op = Some rest)
    ∧ (strings.HasPrefix (Endpoint.Name endp) "/api/v0/" = false →
       Operation.ID op = Some (Endpoint.Name endp))
    ∧ ∃ anchor,
        Operation.ExternalDocs op
        = Some (ExternalDocumentation.mk
                  ("https://docs.ipfs.tech/reference/kubo/rpc/#" +:+ anchor))
        ∧ strings.Contains anchor "/" = false.
Proof.
  intros Hopts%noFile_Forall. run_operation endp positional Hpos Hopts.
  eexists. split; [reflexivity|].
  cbn [Operation.ID Operation.ExternalDocs]. split; [|split].
  - intros rest ->. by rewrite TrimPrefix_append.
  - intros Hno. unfold strings.TrimPrefix. by rewrite Hno.
  - eexists. split; [reflexivity|]. unfold strings.ReplaceAll.
    apply ReplaceAll_go_no_slash. lia.
Qed.

(** The parameters of the operation. The assembly ends in a panic
    exactly when an option is a file (the nil that the single-argument
    mapper returns for it is dereferenced). Otherwise the arguments that
    are not files give at most one parameter, before all others: none
    when there is no such argument, the parameter of the single-argument
    mapper under the name "arg" when there is one, and the merged
    parameter when there are several. Then every option gives one
    parameter, in order, under its own name. *)
Theorem GenerateEndpoint_op_parameters (endp : Endpoint.t) :
  ((GenerateEndpoint_op md json endp).2 = None ↔ Exists isFile (Endpoint.Options endp))
  ∧ ∀ op,
      (GenerateEndpoint_op md json endp).2 = Some op →
      ∃ positional,
        Some <$> Operation.Parameters op
        = (positional
           ++ ((λ arg, (genParameterForArgument arg false).2) <$> Endpoint.Options endp))%list
        ∧ positional = match otherArgsOf endp with
                       | [] => []
                       | [arg] => [(genParameterForArgument arg true).2]
                       | _ => [(genParameterForMultiArgument (otherArgsOf endp)).2]
                       end
        ∧ Forall is_Some positional
        ∧ List.length (Operation.Parameters op)
          = (Nat.min 1 (List.length (otherArgsOf endp))
             + List.length (Endpoint.Options endp))%nat.
Proof.
  split; [apply GenerateEndpoint_op_panics|].
  intros op. destruct (noFile (Endpoint.Options endp)) eqn:Hopts.
  - run_operation endp positional Hpos Hopts. cbn [snd]. intros [= <-].
    cbn [Operation.Parameters]. exists (Some <$> positional).
    rewrite fmap_app, (parameterOf_fmap false _ Hopts). split; [reflexivity|].
    split; [exact Hpos|]. split.
    + apply Forall_fmap, Forall_true. intros p. by eexists.
    + rewrite length_app, !length_fmap. f_equal.
      apply (f_equal List.length) in Hpos. rewrite length_fmap in Hpos. rewrite Hpos.
      by destruct (otherArgsOf endp) as [|arg [|arg' args]].
  - apply noFile_Exists, (GenerateEndpoint_op_panics md json) in Hopts.
    rewrite Hopts. discriminate.
Qed.

(** The request body of the operation of an endpoint none of whose
    options is a file. There is one exactly when an argument is a file.
    Its schema has one property, named after the first file argument; it
    is required exactly when one of the file arguments is required, and
    [Required] never points to false; its description is the body block
    of the markdown formatter without the white space around it and then
    without the heading. *)
Theorem GenerateEndpoint_op_request_body (endp : Endpoint.t) :
  Forall notFile (Endpoint.Options endp) →
  ∃ op,
    (GenerateEndpoint_op md json endp).2 = Some op
    ∧ match bodyArgsOf endp with
      | [] => Operation.RequestBody op = None
      | first :: _ =>
          ∃ rb schema properties,
            Operation.RequestBody op = Some rb
            ∧ RequestBody.Content rb
              = {["multipart/form-data" := MediaType.mk (Some schema) None]}
            ∧ Schema.Type_ schema = Some SchemaTypeObject
            ∧ Schema.Properties schema = Some properties
            ∧ dom properties = {[Argument.Name first]}
            ∧ RequestBody.Required rb
              = (if existsb Argument.Required (bodyArgsOf endp) then Some true else None)
            ∧ RequestBody.Description rb
              = Some (strings.TrimPrefix (strings.TrimSpace (md (bodyArgsOf endp)))
                        ("### Request Body" +:+ LF +:+ LF))
      end.
Proof.
  intros Hopts%noFile_Forall. run_operation endp positional Hpos Hopts.
  eexists. split; [reflexivity|]. cbn [Operation.RequestBody].
  destruct (bodyArgsOf endp) as [|first rest]; [reflexivity|].
  eexists _, _, _. split; [reflexivity|]. cbn [RequestBody.Content RequestBody.Required
    RequestBody.Description]. split; [reflexivity|]. cbn [Schema.Type_ Schema.Properties].
  split; [reflexivity|]. split; [reflexivity|]. split; [|done].
  apply dom_singleton_L.
Qed.

End MoreAssemblerProperties.

Lemma GenerateEndpoint_op_identifiers_witness :
  ∃ op,
    (GenerateEndpoint_op (λ _, "") (λ _, inr "")
       (Endpoint.mk "/api/v0/name/resolve" "" [] [] "" Active)).2 = Some op
    ∧ Operation.ID op = Some "name/resolve".
Proof.
  destruct (GenerateEndpoint_op_identifiers (λ _, "") (λ _, inr "")
              (Endpoint.mk "/api/v0/name/resolve" "" [] [] "" Active))
    as (op & Hop & Hid & _).
  - constructor.
  - exists op. split; [exact Hop|]. apply Hid. reflexivity.
Defined.

Lemma GenerateEndpoint_op_request_body_witness :
  let file := Argument.mk "path" "The path to a file to be added." "file" true "" in
  let endp :=
    Endpoint.mk "/api/v0/add" "Add a file."
      [file] [Argument.mk "quiet" "Write minimal output." "bool" false ""] "" Active in
  ∃ op rb,
    (GenerateEndpoint_op (λ _, "### Request Body" +:+ LF +:+ LF +:+ "Argument `path`.")
       (λ _, inr "") endp).2 = Some op
    ∧ Operation.RequestBody op = Some rb
    ∧ RequestBody.Required rb = Some true
    ∧ RequestBody.Description rb = Some "Argument `path`.".
Proof.
  intros file endp.
  destruct (GenerateEndpoint_op_request_body
              (λ _, "### Request Body" +:+ LF +:+ LF +:+ "Argument `path`.")
              (λ _, inr "") endp)
    as (op & Hop & rb & schema & properties & Hrb & _ & _ & _ & _ & Hreq & Hdesc).
  - repeat constructor.
  - exists op, rb. split; [exact Hop|]. split; [exact Hrb|]. split; [exact Hreq|].
    exact Hdesc.
Defined.

(** ** More on [Generate] *)

Section MoreGenerateProperties.

Variable md : list Argument.t → string.
Variable json : string → any + error.
Variable builder : Spec.t → string → string → Operation.t → Spec.t * option error.

Lemma Generate_endpoints_events endpoints : ∀ myself,
  snd <$> (Generate_endpoints md json builder myself endpoints).2 = Some None →
  (Generate_endpoints md json builder myself endpoints).1
  = concat ((λ endp, (GenerateEndpoint_op md json endp).1) <$> endpoints).
Proof.
  induction endpoints as [|endp endpoints IH]; intros myself; [done|].
  cbn [Generate_endpoints fmap list_fmap concat]. W_simpl.
  rewrite GenerateEndpoint_run. cbn [fst snd].
  destruct (GenerateEndpoint_op md json endp).2 as [op|];
    cbn [fmap option_fmap option_map and_then mret W_ret fst snd]; [|discriminate].
  destruct (builder _ _ _ _) as [spec [err|]];
    cbn [and_then mret W_ret fst snd]; [discriminate|].
  intros Hrest. by rewrite (IH _ Hrest).
Qed.

Lemma Generate_endpoints_stops endpoints1 :
  ∀ myself endp endpoints2 out1 myself1 out2 myself2 err,
  Generate_endpoints md json builder myself endpoints1 = (out1, Some (myself1, None)) →
  GenerateEndpoint md json builder myself1 endp = (out2, Some (myself2, Some err)) →
  Generate_endpoints md json builder myself (endpoints1 ++ endp :: endpoints2)
  = ((out1 ++ out2)%list, Some (myself2, Some err)).
Proof.
  intros myself endp endpoints2 out1 myself1 out2 myself2 err H1 H2.
  rewrite Generate_endpoints_app, H1, W_bind_pair. cbn [and_then Generate_endpoints].
  rewrite H2, W_bind_pair. cbn [and_then mret W_ret fst snd]. by rewrite app_nil_r.
Qed.

(** [Generate] returns at the first error of the document builder: when
    the endpoints before some endpoint, in the order of generation, are
    added without an error and that endpoint is not, [Generate] ends with
    this error and with what was printed so far; the endpoints after it
    play no part. *)
Theorem Generate_stops_at_first_error
    (myself : OpenAPIFormatter.t) (api endpoints1 : list Endpoint.t) (endp : Endpoint.t)
    (endpoints2 : list Endpoint.t) out1 myself1 out2 myself2 err :
  (InStatus api Active ++ InStatus api Experimental
     ++ InStatus api Deprecated ++ InStatus api Removed)%list
  = (endpoints1 ++ endp :: endpoints2)%list →
  Generate_endpoints md json builder (GenerateMetadata myself) endpoints1
  = (out1, Some (myself1, None)) →
  GenerateEndpoint md json builder myself1 endp = (out2, Some (myself2, Some err)) →
  Generate md json builder myself api = ((out1 ++ out2)%list, Some (myself2, Some err)).
Proof.
  intros Horder H1 H2.
  rewrite Generate_endpoints_order, Horder.
  by apply Generate_endpoints_stops with myself1.
Qed.

(** When [Generate] ends without an error, what it has printed is what
    the assembly of each endpoint prints, in the order of generation:
    Active, Experimental, Deprecated, Removed. *)
Theorem Generate_events (myself : OpenAPIFormatter.t) (api : list Endpoint.t) :
  snd <$> (Generate md json builder myself api).2 = Some None →
  (Generate md json builder myself api).1
  = concat ((λ endp, (GenerateEndpoint_op md json endp).1)
              <$> (InStatus api Active ++ InStatus api Experimental
                     ++ InStatus api Deprecated ++ InStatus api Removed)%list).
Proof.
  rewrite Generate_endpoints_order. apply Generate_endpoints_events.
Qed.

End MoreGenerateProperties.

Lemma Generate_stops_at_first_error_witness :
  let old := Endpoint.mk "/api/v0/ls" "Old listing." [] [] "" Deprecated in
  let new := Endpoint.mk "/api/v0/ls" "Listing." [] [] "" Active in
  let last := Endpoint.mk "/api/v0/zz" "Never reached." [] [] "" Removed in
  ∃ out myself',
    Generate (λ _, "") (λ _, inr "") AddOperation_model OpenAPIFormatter.zero [old; new; last]
    = (out, Some (myself', Some "operation already exists: post /api/v0/ls"))
    ∧ Spec.Paths (OpenAPIFormatter.spec myself') !! "/api/v0/zz" = None.
Proof.
  intros old new last.
  pose (first := Generate_endpoints (λ _, "") (λ _, inr "") AddOperation_model
                  (GenerateMetadata OpenAPIFormatter.zero) [new]).
  pose (myself1 := from_option fst OpenAPIFormatter.zero first.2).
  pose (second := GenerateEndpoint (λ _, "") (λ _, inr "") AddOperation_model myself1 old).
  pose (myself2 := from_option fst OpenAPIFormatter.zero second.2).
  assert (H1 : first = (first.1, Some (myself1, None))) by (vm_compute; reflexivity).
  assert (H2 : second
               = (second.1, Some (myself2, Some "operation already exists: post /api/v0/ls")))
    by (vm_compute; reflexivity).
  exists (first.1 ++ second.1)%list, myself2. split; [|vm_compute; reflexivity].
  exact (Generate_stops_at_first_error (λ _, "") (λ _, inr "") AddOperation_model
           OpenAPIFormatter.zero [old; new; last] [new] old [last] first.1 myself1
           second.1 myself2 _ eq_refl H1 H2).
Defined.

Lemma Generate_events_witness :
  let strange := Endpoint.mk "/api/v0/a" "" [Argument.mk "x" "" "float" false ""] [] "" Removed in
  let plain := Endpoint.mk "/api/v0/b" "" [] [] "[]" Active in
  (Generate (λ _, "") (λ _, inl (any_slice [])) AddOperation_model OpenAPIFormatter.zero
            [strange; plain]).1
  = [array_warning; unsupported_warning "float"].
Proof.
  intros strange plain.
  rewrite (Generate_events (λ _, "") (λ _, inl (any_slice [])) AddOperation_model
             OpenAPIFormatter.zero [strange; plain]).
  - vm_compute. reflexivity.
  - vm_compute. reflexivity.
Defined.

(** ** How the parts compose in an operation *)

Section ComposeProperties.

Variable md : list Argument.t → string.
Variable json : string → any + error.

(** What the assembly of an endpoint prints, in order: the warnings of
    the single-argument mapper for the arguments (the merged parameter
    prints the same as separate parameters would, a file prints nothing),
    then those for the options before the first option that is a file.
    With such an option the run ends there, in a panic. Without one
    follow the warnings of the response: nothing for the plain-text
    sentence or an empty response, the failure when the response is not
    JSON, and the warnings of the inferencer otherwise. *)
Theorem GenerateEndpoint_op_events (endp : Endpoint.t) :
  (GenerateEndpoint_op md json endp).1
  = (argumentEvents (Endpoint.Arguments endp)
     ++ argumentEvents (untilFile (Endpoint.Options endp))
     ++ (if noFile (Endpoint.Options endp) then
           if String.eqb (Endpoint.Response endp) plainTextResponse then []
           else if String.eqb (Endpoint.Response endp) "" then []
           else match json (Endpoint.Response endp) with
                | inr err =>
                    [log_Println [any_string "Couldn't parse JSON for Response:";
                                  any_error err; any_string "; JSON:";
                                  any_string (Endpoint.Response endp)]]
                | inl responseJson => (genSchemaForResponse responseJson).1
                end
         else []))%list.
Proof.
  unfold GenerateEndpoint_op. fold (otherArgsOf endp). fold (bodyArgsOf endp).
  destruct (positional_parameters_run endp) as (positional & -> & Hpos).
  rewrite W_bind_pair. cbn [or_panic]. rewrite range_parameters_run, W_bind_pair.
  cbn [fst]. do 2 f_equal.
  destruct (noFile (Endpoint.Options endp)); cbn [or_panic]; [|reflexivity].
  rewrite W_bind_ret. cbn [fst].
  destruct (String.eqb _ plainTextResponse); [reflexivity|].
  destruct (String.eqb _ ""); cbn [negb]; [reflexivity|].
  destruct (json _); W_simpl; by rewrite ?app_nil_r.
Qed.


End ComposeProperties.

